(** * Lago disk export: a shallow embedding of [lago/export.py]

    The export managers of Lago copy a disk image out of a prefix, make it
    sparse, rebase it (templates), record a checksum and a metadata sidecar,
    and optionally compress the result, all under a rollback context.

    The embedding follows the Python source method by method.  Python
    objects that are shared and mutated (the caller's [disk] dict, the
    [exported_metadata] dict) live in an explicit object heap; the file
    system and the sequence of external calls are part of the state; an
    exception is a value of [exn] returned next to the state it leaves
    behind. *)

From Stdlib Require Import Ascii.
From stdpp Require Import gmap strings list fin_maps pretty.

Open Scope string_scope.

(** ** Strings: the fragments of [os.path] and [str] the module uses *)

Module PyStr.

(** Does the character ['/'] occur in the string? *)
Fixpoint has_slash (s : string) : bool :=
  match s with
  | EmptyString => false
  | String c r => if Ascii.eqb c "/"%char then true else has_slash r
  end.

(** [posixpath.basename]: [p[p.rfind('/') + 1:]]. *)
Fixpoint basename (s : string) : string :=
  match s with
  | EmptyString => EmptyString
  | String c r =>
      if Ascii.eqb c "/"%char then basename r
      else if has_slash r then basename r else s
  end.

Definition startswith_slash (s : string) : bool :=
  match s with
  | String c _ => Ascii.eqb c "/"%char
  | EmptyString => false
  end.

Fixpoint endswith_slash (s : string) : bool :=
  match s with
  | EmptyString => false
  | String c EmptyString => Ascii.eqb c "/"%char
  | String _ r => endswith_slash r
  end.

(** [posixpath.join(a, b)] with two arguments. *)
Definition join (a b : string) : string :=
  if startswith_slash b then b
  else if orb (String.eqb a "") (endswith_slash a) then a ++ b
  else a ++ "/" ++ b.

(** [s.split(':', 1)[1]]: the text after the first colon; [None] stands
    for the [IndexError] raised when the string has no colon. *)
Fixpoint after_colon (s : string) : option string :=
  match s with
  | EmptyString => None
  | String c r => if Ascii.eqb c ":"%char then Some r else after_colon r
  end.

(** Is [p] a proper path prefix of [q], that is, does [q] lie below the
    directory [p]? *)
Definition below (p q : string) : bool := String.prefix (p ++ "/") q.

End PyStr.

(** ** Values, objects and the heap *)

Definition loc := positive.

(** What a variable or a container slot can hold: a scalar, or a reference
    to a mutable object on the heap. *)
Inductive value :=
| VNone
| VBool (b : bool)
| VInt (z : Z)
| VStr (s : string)
| VRef (l : loc).

(** Mutable containers: dicts (with string keys) and lists. *)
Inductive object :=
| ODict (d : gmap string value)
| OList (vs : list value).

#[global] Instance value_eq_dec : EqDecision value.
Proof. solve_decision. Defined.

(** ** Exceptions *)

Inductive exn :=
| KeyError (k : string)
| IndexError
| TypeError
| AttributeError
| RecursionError
| ValueError (msg : string)
| IOError (p : string)
| OSError (p : string)
| LagoUserException (msg : string)
| ToolError (tool detail : string)
| InvalidRef (l : loc).

(** ** JSON documents *)

#[warnings="-register-all"]
Inductive json :=
| JNull
| JBool (b : bool)
| JInt (z : Z)
| JStr (s : string)
| JArr (js : list json)
| JObj (kvs : list (string * json)).

(** Member lookup in a JSON object. *)
Fixpoint assoc_get {A} (k : string) (kvs : list (string * A)) : option A :=
  match kvs with
  | [] => None
  | (k', v) :: r => if String.eqb k k' then Some v else assoc_get k r
  end.

Definition json_get (k : string) (j : json) : option json :=
  match j with
  | JObj kvs => assoc_get k kvs
  | _ => None
  end.

(** ** The file system *)

Inductive node :=
| File (data : string)
| Dir.

(** ** The trace of calls that reach outside the process *)

Inductive event :=
| EvCp (src dst : string)
| EvSparse (p : string) (fmt : value)
| EvQemuInfo (p : string)
| EvRebase (target backing_file : string) (safe : option bool)
| EvGetHash (p algo : string)
| EvCompress (p : string) (block_size : Z)
| EvOpen (p : string)
| EvWrite (p data : string)
| EvStat (p : string)
| EvUnlink (p : string)
| EvRmtree (p : string).

#[global] Instance event_eq_dec : EqDecision event.
Proof. solve_decision. Defined.

(** An action registered with the rollback context.  The module only ever
    defers [shutil.rmtree(path, ignore_errors=...)]. *)
Inductive deferred :=
| DeferRmtree (p : string) (ignore_errors : bool).

(** ** Program state *)

Record state := mkState {
  st_fs : gmap string node;
  st_heap : gmap loc object;
  st_trace : list event;
  st_rollback : list deferred
}.

Definition set_fs (f : gmap string node) (s : state) : state :=
  mkState f (st_heap s) (st_trace s) (st_rollback s).
Definition set_heap (h : gmap loc object) (s : state) : state :=
  mkState (st_fs s) h (st_trace s) (st_rollback s).
Definition set_rollback (r : list deferred) (s : state) : state :=
  mkState (st_fs s) (st_heap s) (st_trace s) r.
Definition emit (e : event) (s : state) : state :=
  mkState (st_fs s) (st_heap s) (st_trace s ++ [e]) (st_rollback s).

(** ** The state-and-exception monad

    A computation returns its result or the exception it raised, together
    with the state it leaves: effects performed before a failure stay. *)

Definition M (A : Type) : Type := state → (exn + A) * state.

Definition ret {A} (a : A) : M A := λ s, (inr a, s).
Definition raise {A} (e : exn) : M A := λ s, (inl e, s).
Definition bind {A B} (m : M A) (k : A → M B) : M B :=
  λ s, match m s with
       | (inl e, s') => (inl e, s')
       | (inr a, s') => k a s'
       end.

#[global] Instance M_ret : MRet M := @ret.
#[global] Instance M_bind : MBind M := λ A B k m, bind m k.

Definition get_state : M state := λ s, (inr s, s).
Definition modify (f : state → state) : M unit := λ s, (inr tt, f s).
Definition log (e : event) : M unit := modify (emit e).
Definition lift_res {A} (r : exn + A) : M A := λ s, (r, s).

(** ** The environment

    Everything the module reaches through [utils], the operating system or
    the clock.  The external tools are fallible capabilities: each may
    change the file system in any way and may fail after doing so.  The
    export code is verified for every environment. *)

Record Env := mkEnv {
  (** [os.path.expandvars] *)
  expandvars : string → string;
  (** [time.strftime(fmt)] at the time of the export *)
  strftime : string → string;
  (** the digest of a byte string under a named algorithm ([hashlib]) *)
  digest : string → string → string;
  (** [json.dumps] of a document, and the text [json.dump] has already
      written when the encoder raises *)
  json_dumps : json → string;
  json_partial : gmap loc object → value → string;
  (** does the operating system let [open(p, 'wt')] create or truncate? *)
  may_open : string → gmap string node → bool;
  (** [st_size] reported for a directory *)
  dir_size : Z;
  (** the interpreter's recursion limit *)
  recursion_limit : nat;
  (** [utils.cp], [utils.sparse], [utils.compress], [utils.qemu_rebase] *)
  tool_cp : string → string → gmap string node → option exn * gmap string node;
  tool_sparse : string → value → gmap string node → option exn * gmap string node;
  tool_compress : string → Z → gmap string node → option exn * gmap string node;
  tool_qemu_rebase :
    string → string → option bool → gmap string node →
    option exn * gmap string node;
  (** [utils.get_qemu_info(path, backing_chain=True)]: a read-only query *)
  tool_qemu_info : string → gmap string node → exn + list (gmap string value)
}.

(** Run an external tool on the file system, recording the call. *)
Definition run_tool (e : event)
    (t : gmap string node → option exn * gmap string node) : M unit :=
  λ s,
    let s1 := emit e s in
    match t (st_fs s1) with
    | (Some x, f) => (inl x, set_fs f s1)
    | (None, f) => (inr tt, set_fs f s1)
    end.

(** ** Python primitives on the heap *)

Module Py.

(** [d[k]] where [d] is a reference held in a variable. *)
Definition getitem (v : value) (k : string) : M value :=
  λ s,
    match v with
    | VRef l =>
        match st_heap s !! l with
        | Some (ODict d) =>
            match d !! k with
            | Some x => (inr x, s)
            | None => (inl (KeyError k), s)
            end
        | Some (OList _) => (inl TypeError, s)
        | None => (inl (InvalidRef l), s)
        end
    | _ => (inl TypeError, s)
    end.

(** [d[k] = x]: mutates the object the reference points to. *)
Definition setitem (v : value) (k : string) (x : value) : M unit :=
  λ s,
    match v with
    | VRef l =>
        match st_heap s !! l with
        | Some (ODict d) =>
            (inr tt, set_heap (<[l := ODict (<[k := x]> d)]> (st_heap s)) s)
        | Some (OList _) => (inl TypeError, s)
        | None => (inl (InvalidRef l), s)
        end
    | _ => (inl TypeError, s)
    end.

(** A value used where the code needs a [str]. *)
Definition as_str (v : value) : M string :=
  match v with
  | VStr x => ret x
  | _ => raise TypeError
  end.

(** ['{}'.format(v)] for a scalar. *)
Definition format (v : value) : string :=
  match v with
  | VNone => "None"
  | VBool true => "True"
  | VBool false => "False"
  | VInt z => pretty z
  | VStr x => x
  | VRef _ => "<object>"
  end.

(** In-place updates of a freshly made copy. *)
Definition dict_store (k : string) (x : value) (o : object) : object :=
  match o with
  | ODict d => ODict (<[k := x]> d)
  | OList vs => OList vs
  end.

Definition list_append (x : value) (o : object) : object :=
  match o with
  | OList vs => OList (vs ++ [x])
  | ODict d => ODict d
  end.

(** The state [copy.deepcopy] threads: its memo and the heap. *)
Definition cstate : Type := gmap loc loc * gmap loc object.

Section items.
Variable rec : value → cstate → (exn + value) * cstate.

(** [for key, value in x.items(): y[key] = deepcopy(value, memo)] *)
Fixpoint copy_dict_items (y : loc) (kvs : list (string * value))
    (c : cstate) : option exn * cstate :=
  match kvs with
  | [] => (None, c)
  | (k, v) :: r =>
      match rec v c with
      | (inl e, c') => (Some e, c')
      | (inr v', (memo, h)) =>
          copy_dict_items y r (memo, alter (dict_store k v') y h)
      end
  end.

(** [for a in x: y.append(deepcopy(a, memo))] *)
Fixpoint copy_list_items (y : loc) (vs : list value)
    (c : cstate) : option exn * cstate :=
  match vs with
  | [] => (None, c)
  | v :: r =>
      match rec v c with
      | (inl e, c') => (Some e, c')
      | (inr v', (memo, h)) =>
          copy_list_items y r (memo, alter (list_append v') y h)
      end
  end.
End items.

(** [copy.deepcopy(v, memo)].  The fuel is the recursion depth left;
    running out of it is Python's [RecursionError]. *)
Fixpoint deepcopy_rec (fuel : nat) (v : value) (c : cstate)
    : (exn + value) * cstate :=
  match v with
  | VRef l =>
      match c.1 !! l with
      | Some y => (inr (VRef y), c)
      | None =>
          match fuel with
          | O => (inl RecursionError, c)
          | S f =>
              match c.2 !! l with
              | None => (inl (InvalidRef l), c)
              | Some (ODict d) =>
                  let y := fresh (dom c.2) in
                  match copy_dict_items (deepcopy_rec f) y (map_to_list d)
                          (<[l := y]> c.1, <[y := ODict ∅]> c.2) with
                  | (Some e, c') => (inl e, c')
                  | (None, c') => (inr (VRef y), c')
                  end
              | Some (OList vs) =>
                  let y := fresh (dom c.2) in
                  match copy_list_items (deepcopy_rec f) y vs
                          (<[l := y]> c.1, <[y := OList []]> c.2) with
                  | (Some e, c') => (inl e, c')
                  | (None, c') => (inr (VRef y), c')
                  end
              end
          end
      end
  | _ => (inr v, c)
  end.

Definition deepcopy (E : Env) (v : value) : M value :=
  λ s,
    match deepcopy_rec (recursion_limit E) v (∅, st_heap s) with
    | (r, (_, h)) => (r, set_heap h s)
    end.

Section encode.
Variable rec : value → exn + json.

Fixpoint encode_items (kvs : list (string * value))
    : exn + list (string * json) :=
  match kvs with
  | [] => inr []
  | (k, v) :: r =>
      match rec v with
      | inl e => inl e
      | inr j =>
          match encode_items r with
          | inl e => inl e
          | inr js => inr ((k, j) :: js)
          end
      end
  end.

Fixpoint encode_list (vs : list value) : exn + list json :=
  match vs with
  | [] => inr []
  | v :: r =>
      match rec v with
      | inl e => inl e
      | inr j =>
          match encode_list r with
          | inl e => inl e
          | inr js => inr (j :: js)
          end
      end
  end.
End encode.

(** The JSON encoder: the document a value denotes.  [markers] are the
    containers being encoded, for the circular-reference check. *)
Fixpoint to_json (fuel : nat) (markers : gset loc)
    (h : gmap loc object) (v : value) : exn + json :=
  match v with
  | VNone => inr JNull
  | VBool b => inr (JBool b)
  | VInt z => inr (JInt z)
  | VStr x => inr (JStr x)
  | VRef l =>
      if decide (l ∈ markers) then
        inl (ValueError "Circular reference detected")
      else
        match fuel with
        | O => inl RecursionError
        | S f =>
            match h !! l with
            | None => inl (InvalidRef l)
            | Some (ODict d) =>
                match encode_items (to_json f ({[l]} ∪ markers) h)
                        (map_to_list d) with
                | inl e => inl e
                | inr kvs => inr (JObj kvs)
                end
            | Some (OList vs) =>
                match encode_list (to_json f ({[l]} ∪ markers) h) vs with
                | inl e => inl e
                | inr js => inr (JArr js)
                end
            end
        end
  end.

End Py.

(** ** Operating-system calls: [open], [os.stat], [os.unlink],
    [shutil.rmtree] *)

Module Os.

(** [open(p, 'wt')]: create or truncate. *)
Definition open_wt (E : Env) (p : string) : M unit :=
  log (EvOpen p);;
  s ← get_state;
  match st_fs s !! p with
  | Some Dir => raise (IOError p)
  | _ =>
      if may_open E p (st_fs s)
      then modify (set_fs (<[p := File ""]> (st_fs s)))
      else raise (IOError p)
  end.

(** [f.write(data)] on a file opened at [p]. *)
Definition write (p data : string) : M unit :=
  log (EvWrite p data);;
  s ← get_state;
  match st_fs s !! p with
  | Some (File old) => modify (set_fs (<[p := File (old ++ data)]> (st_fs s)))
  | _ => raise (IOError p)
  end.

(** [os.stat(p).st_size] *)
Definition stat_size (E : Env) (p : string) : M Z :=
  log (EvStat p);;
  s ← get_state;
  match st_fs s !! p with
  | Some (File data) => mret (Z.of_nat (String.length data))
  | Some Dir => mret (dir_size E)
  | None => raise (OSError p)
  end.

(** [os.unlink(p)]: removes a file; fails on a directory or a missing
    path. *)
Definition unlink (p : string) : M unit :=
  log (EvUnlink p);;
  s ← get_state;
  match st_fs s !! p with
  | Some (File _) => modify (set_fs (delete p (st_fs s)))
  | _ => raise (OSError p)
  end.

(** The entries that survive the removal of the tree rooted at [p]. *)
Definition outside (p : string) (q : string) : bool :=
  negb (String.eqb q p || PyStr.below p q).

(** [shutil.rmtree(p, ignore_errors=ig)].  The function lists the
    directory [p], removes what is below it and then removes [p] with
    [os.rmdir].  When [p] is not a directory (a regular file, or
    nothing) both calls raise [OSError]; with [ignore_errors] set the
    error handler discards them and the call returns with the file
    system as it was. *)
Definition rmtree (p : string) (ig : bool) : M unit :=
  log (EvRmtree p);;
  s ← get_state;
  match st_fs s !! p with
  | Some Dir =>
      modify (set_fs (filter (λ kv, outside p kv.1 = true) (st_fs s)))
  | _ => if ig then mret tt else raise (OSError p)
  end.

End Os.

(** Modelled from the spec: [utils.get_hash(path, checksum)], which is not
    part of the sources at hand.  The spec describes it as
    [computeDigest(path, algorithm)] giving a hex string: the digest of
    the bytes of the file. *)
Definition get_hash (E : Env) (p algo : string) : M string :=
  log (EvGetHash p algo);;
  s ← get_state;
  match st_fs s !! p with
  | Some (File data) => mret (digest E algo data)
  | _ => raise (IOError p)
  end.

(** Modelled from the spec: [utils.RollbackContext], which is not part of
    the sources at hand.  The spec describes a scoped guard: cleanup
    actions are registered up front ([prependDefer] puts an action first,
    so that actions run in the reverse order of registration), [clear]
    disarms them, and on leaving the scope every action still registered
    runs once, synchronously, before the outcome of the body (its result
    or its original error) reaches the caller; a failure of a cleanup
    action is swallowed. *)
Module RollbackContext.

Definition prependDefer (d : deferred) : M unit :=
  modify (λ s, set_rollback (d :: st_rollback s) s).

Definition clear : M unit := modify (set_rollback []).

Definition run (d : deferred) : M unit :=
  match d with
  | DeferRmtree p ig => Os.rmtree p ig
  end.

Fixpoint unwind (ds : list deferred) (s : state) : state :=
  match ds with
  | [] => s
  | d :: r => unwind r (run d s).2
  end.

(** [with utils.RollbackContext() as rollback: body] *)
Definition scope {A} (body : M A) : M A :=
  λ s,
    match body (set_rollback [] s) with
    | (r, s1) => (r, set_rollback (st_rollback s) (unwind (st_rollback s1) s1))
    end.

End RollbackContext.

(** ** [class DiskExportManager] *)

Module DiskExportManager.

Record t := mk {
  src : string;
  name : string;
  dst : string;
  dist_type : value;
  disk : value;
  exported_metadata : value;
  do_compress : bool
}.

(** [__init__(self, dst, disk_type, disk, do_compress)] *)
Definition init (E : Env) (dst_arg : string) (disk_type disk_arg : value)
    (do_compress_arg : bool) : M t :=
  p ← Py.getitem disk_arg "path";
  p ← Py.as_str p;
  let src := expandvars E p in
  let name := PyStr.basename src in
  let dst := PyStr.join (expandvars E dst_arg) name in
  md ← Py.getitem disk_arg "metadata";
  md ← Py.deepcopy E md;
  mret (mk src name dst disk_type disk_arg md do_compress_arg).

Definition copy (E : Env) (self : t) : M unit :=
  run_tool (EvCp (src self) (dst self)) (tool_cp E (src self) (dst self)).

Definition sparse (E : Env) (self : t) : M unit :=
  fmt ← Py.getitem (disk self) "format";
  run_tool (EvSparse (dst self) fmt) (tool_sparse E (dst self) fmt).

Definition calc_sha (E : Env) (self : t) (checksum : string) : M unit :=
  Os.open_wt E (dst self ++ ".hash");;
  sha ← get_hash E (dst self) checksum;
  Os.write (dst self ++ ".hash") sha;;
  Py.setitem (exported_metadata self) checksum (VStr sha).

Definition compress (E : Env) (self : t) : M unit :=
  if negb (do_compress self) then mret tt
  else
    run_tool (EvCompress (dst self) 16777216)
             (tool_compress E (dst self) 16777216);;
    Os.unlink (dst self).

Definition update_lago_metadata (E : Env) (self : t) : M unit :=
  size ← Os.stat_size E (dst self);
  Py.setitem (exported_metadata self) "size" (VInt size);;
  Py.setitem (exported_metadata self) "name" (VStr (name self));;
  Py.setitem (exported_metadata self) "version" (VStr (strftime E "%Y%m%d.0")).

(** [json.dump(self.exported_metadata, f)]: the encoder walks the value
    and the chunks go to the file as they are produced. *)
Definition write_lago_metadata (E : Env) (self : t) : M unit :=
  Os.open_wt E (dst self ++ ".metadata");;
  s ← get_state;
  match Py.to_json (recursion_limit E) ∅ (st_heap s)
          (exported_metadata self) with
  | inr j => Os.write (dst self ++ ".metadata") (json_dumps E j)
  | inl e =>
      Os.write (dst self ++ ".metadata")
               (json_partial E (st_heap s) (exported_metadata self));;
      raise e
  end.

End DiskExportManager.

(** ** Calling a subclass

    [get_instance_by_type] builds the manager with
    [cls(dst, disk_type, disk, do_compress, *args, **kwargs)], and both
    subclasses declare
    [__init__(self, dst, disk_type, disk, do_compress, *args, **kwargs)].
    [kwargs] is the dict of the keywords that reach [**kwargs]; a keyword
    named after a parameter the call fills by position makes the call
    raise [TypeError] ("got multiple values for argument") before the
    body of [__init__] runs. *)

Definition positional : list string :=
  ["self"; "dst"; "disk_type"; "disk"; "do_compress"].

Definition keywords_bind (kwargs : gmap string bool) : bool :=
  forallb (λ k, bool_decide (kwargs !! k = None)) positional.

Definition bind_keywords (kwargs : gmap string bool) : M unit :=
  if keywords_bind kwargs then mret tt else raise TypeError.

(** ** [class TemplateExportManager(DiskExportManager)] *)

Module TemplateExportManager.

Record t := mk {
  base : DiskExportManager.t;
  standalone : bool;
  src_qemu_info : list (gmap string value)
}.

(** [__init__(self, dst, disk_type, disk, do_compress, *args, **kwargs)] *)
Definition init (E : Env) (dst_arg : string) (disk_type disk_arg : value)
    (do_compress_arg : bool) (kwargs : gmap string bool) : M t :=
  bind_keywords kwargs;;
  self ← DiskExportManager.init E dst_arg disk_type disk_arg do_compress_arg;
  standalone ← match kwargs !! "standalone" with
               | Some b => mret b
               | None => raise (KeyError "standalone")
               end;
  log (EvQemuInfo (DiskExportManager.src self));;
  s ← get_state;
  info ← lift_res (tool_qemu_info E (DiskExportManager.src self) (st_fs s));
  mret (mk self standalone info).

Definition layered_msg : string :=
  "Layered export is currently supported for one layer only.  You can try to use Standalone export.".

Definition rebase (E : Env) (self : t) : M unit :=
  let dst := DiskExportManager.dst (base self) in
  if Nat.eqb (length (src_qemu_info self)) 1 then mret tt
  else if standalone self then
    run_tool (EvRebase dst "" None) (tool_qemu_rebase E dst "" None)
  else
    if Nat.ltb 2 (length (src_qemu_info self)) then
      raise (LagoUserException layered_msg)
    else
      entry ← match src_qemu_info self with
              | e :: _ => mret e
              | [] => raise IndexError
              end;
      parent ← match entry !! "backing-filename" with
               | Some v => mret v
               | None => raise (KeyError "backing-filename")
               end;
      parent ← match parent with
               | VStr x => mret x
               | _ => raise AttributeError
               end;
      tail ← match PyStr.after_colon parent with
             | Some x => mret x
             | None => raise IndexError
             end;
      let parent := "./" ++ PyStr.basename tail in
      run_tool (EvRebase dst parent (Some false))
               (tool_qemu_rebase E dst parent (Some false)).

Definition update_lago_metadata (E : Env) (self : t) : M unit :=
  DiskExportManager.update_lago_metadata E (base self);;
  if standalone self then
    Py.setitem (DiskExportManager.exported_metadata (base self)) "base"
               (VStr "None")
  else
    Py.setitem (DiskExportManager.exported_metadata (base self)) "base"
               (VStr (PyStr.basename (DiskExportManager.src (base self)))).

(** The statements inside the rollback scope of [export]. *)
Definition export_body (E : Env) (self : t) : M unit :=
  RollbackContext.prependDefer
    (DeferRmtree (DiskExportManager.dst (base self)) true);;
  DiskExportManager.copy E (base self);;
  DiskExportManager.sparse E (base self);;
  rebase E self;;
  DiskExportManager.calc_sha E (base self) "sha1";;
  update_lago_metadata E self;;
  DiskExportManager.write_lago_metadata E (base self);;
  DiskExportManager.compress E (base self);;
  RollbackContext.clear.

Definition export (E : Env) (self : t) : M unit :=
  RollbackContext.scope (export_body E self).

End TemplateExportManager.

(** ** [class FileExportManager(DiskExportManager)] *)

Module FileExportManager.

(** [__init__(self, dst, disk_type, disk, do_compress, *args, **kwargs)] *)
Definition init (E : Env) (dst_arg : string) (disk_type disk_arg : value)
    (do_compress_arg : bool) (kwargs : gmap string bool)
    : M DiskExportManager.t :=
  bind_keywords kwargs;;
  DiskExportManager.init E dst_arg disk_type disk_arg do_compress_arg.

Definition export_body (E : Env) (self : DiskExportManager.t) : M unit :=
  RollbackContext.prependDefer (DeferRmtree (DiskExportManager.dst self) true);;
  DiskExportManager.copy E self;;
  DiskExportManager.sparse E self;;
  DiskExportManager.calc_sha E self "sha1";;
  DiskExportManager.update_lago_metadata E self;;
  DiskExportManager.write_lago_metadata E self;;
  DiskExportManager.compress E self;;
  RollbackContext.clear.

Definition export (E : Env) (self : DiskExportManager.t) : M unit :=
  RollbackContext.scope (export_body E self).

End FileExportManager.

(** ** Dispatch on the disk type *)

Inductive cls := ClsFile | ClsTemplate.

Inductive instance :=
| FileInstance (self : DiskExportManager.t)
| TemplateInstance (self : TemplateExportManager.t).

Definition HANDLERS : gmap string cls :=
  <["file" := ClsFile]> (<["empty" := ClsFile]> (<["template" := ClsTemplate]> ∅)).

Definition unsupported_msg (disk_type : value) : string :=
  "Export is not supported for disk type " ++ Py.format disk_type.

(** [DiskExportManager.get_instance_by_type(dst, disk, do_compress, **kwargs)] *)
Definition get_instance_by_type (E : Env) (dst : string) (disk : value)
    (do_compress : bool) (kwargs : gmap string bool) : M instance :=
  disk_type ← Py.getitem disk "type";
  c ← match disk_type with
      | VStr x => mret (HANDLERS !! x)
      | VRef _ => raise TypeError
      | _ => mret None
      end;
  match c with
  | None => raise (LagoUserException (unsupported_msg disk_type))
  | Some ClsFile =>
      self ← FileExportManager.init E dst disk_type disk do_compress kwargs;
      mret (FileInstance self)
  | Some ClsTemplate =>
      self ← TemplateExportManager.init E dst disk_type disk do_compress kwargs;
      mret (TemplateInstance self)
  end.

(** [manager.export()] on whatever instance was built. *)
Definition export (E : Env) (i : instance) : M unit :=
  match i with
  | FileInstance self => FileExportManager.export E self
  | TemplateInstance self => TemplateExportManager.export E self
  end.

(** The base attributes of an instance. *)
Definition manager_of (i : instance) : DiskExportManager.t :=
  match i with
  | FileInstance self => self
  | TemplateInstance self => TemplateExportManager.base self
  end.

(** ** Specification vocabulary *)

(** What a call of [rebase] may add to the trace: nothing, or one
    [qemu-img rebase] of the destination. *)
Inductive rebase_calls (self : TemplateExportManager.t) : list event → Prop :=
| rebase_none :
    length (TemplateExportManager.src_qemu_info self) = 1 →
    rebase_calls self []
| rebase_merge :
    length (TemplateExportManager.src_qemu_info self) ≠ 1 →
    TemplateExportManager.standalone self = true →
    rebase_calls self
      [EvRebase (DiskExportManager.dst (TemplateExportManager.base self))
                "" None]
| rebase_layer entry rest bf tail :
    TemplateExportManager.standalone self = false →
    TemplateExportManager.src_qemu_info self = entry :: rest →
    length rest = 1 →
    entry !! "backing-filename" = Some (VStr bf) →
    PyStr.after_colon bf = Some tail →
    rebase_calls self
      [EvRebase (DiskExportManager.dst (TemplateExportManager.base self))
                ("./" ++ PyStr.basename tail) (Some false)].

(** What a successful export has done by the time its compress step
    starts ([s6]) and when it returns ([s']). *)
Record exported (E : Env) (i : instance) (s s6 s' : state)
    (data : string) (j : json) (rb : list event)
    (ex_fmt : value) (ex_loc : loc) (ex_dict : gmap string value)
    : Prop := mkExported {
  ex_rebase :
    match i with
    | FileInstance _ => rb = []
    | TemplateInstance self => rebase_calls self rb
    end;
  ex_artifact :
    st_fs s6 !! DiskExportManager.dst (manager_of i) = Some (File data);
  ex_hash :
    st_fs s6 !! (DiskExportManager.dst (manager_of i) ++ ".hash")
    = Some (File (digest E "sha1" data));
  ex_metadata :
    st_fs s6 !! (DiskExportManager.dst (manager_of i) ++ ".metadata")
    = Some (File (json_dumps E j));
  ex_ref : DiskExportManager.exported_metadata (manager_of i) = VRef ex_loc;
  ex_heap : st_heap s6 !! ex_loc = Some (ODict ex_dict);
  ex_json :
    Py.to_json (recursion_limit E) ∅ (st_heap s6) (VRef ex_loc) = inr j;
  ex_sha1 : ex_dict !! "sha1" = Some (VStr (digest E "sha1" data));
  ex_size : ex_dict !! "size" = Some (VInt (Z.of_nat (String.length data)));
  ex_name :
    ex_dict !! "name" = Some (VStr (DiskExportManager.name (manager_of i)));
  ex_version : ex_dict !! "version" = Some (VStr (strftime E "%Y%m%d.0"));
  ex_base :
    match i with
    | FileInstance _ => True
    | TemplateInstance self =>
        ex_dict !! "base" =
        Some (VStr (if TemplateExportManager.standalone self then "None"
                    else PyStr.basename
                           (DiskExportManager.src
                              (TemplateExportManager.base self))))
    end;
  ex_trace :
    st_trace s6 =
    (st_trace s ++
     [EvCp (DiskExportManager.src (manager_of i))
           (DiskExportManager.dst (manager_of i));
      EvSparse (DiskExportManager.dst (manager_of i)) ex_fmt] ++
     rb ++
     [EvOpen (DiskExportManager.dst (manager_of i) ++ ".hash");
      EvGetHash (DiskExportManager.dst (manager_of i)) "sha1";
      EvWrite (DiskExportManager.dst (manager_of i) ++ ".hash")
              (digest E "sha1" data);
      EvStat (DiskExportManager.dst (manager_of i));
      EvOpen (DiskExportManager.dst (manager_of i) ++ ".metadata");
      EvWrite (DiskExportManager.dst (manager_of i) ++ ".metadata")
              (json_dumps E j)])%list;
  ex_compress :
    ∃ s7, DiskExportManager.compress E (manager_of i) s6 = (inr tt, s7) ∧
          s' = set_rollback (st_rollback s) s7
}.

(** What stays as it was.  [h0] is the caller's heap when the export
    manager is built.  A value is fresh for [h0] when it is not a
    reference into it; a step is stable when it keeps the registered
    rollback actions and every object of [h0] as they are. *)
Definition fresh_for (h0 : gmap loc object) (v : value) : Prop :=
  match v with
  | VRef l => h0 !! l = None
  | _ => True
  end.

Definition stable (h0 : gmap loc object) (s s' : state) : Prop :=
  st_rollback s' = st_rollback s ∧ (h0 ⊆ st_heap s → h0 ⊆ st_heap s').

Definition respects {A} (h0 : gmap loc object) (m : M A) : Prop :=
  ∀ s r s', m s = (r, s') → stable h0 s s'.

Definition frames {A} (h0 : gmap loc object) (m : M A) : Prop :=
  ∀ s r s', m s = (r, s') → h0 ⊆ st_heap s → h0 ⊆ st_heap s'.

(** The statements inside the rollback scope, for either class. *)
Definition export_body_of (E : Env) (i : instance) : M unit :=
  match i with
  | FileInstance self => FileExportManager.export_body E self
  | TemplateInstance self => TemplateExportManager.export_body E self
  end.

(** A computation that, when it fails, leaves the registered actions as
    they were; one that, when it succeeds, leaves none. *)
Definition fails_armed {A} (m : M A) : Prop :=
  ∀ s e s', m s = (inl e, s') → st_rollback s' = st_rollback s.

Definition ends_disarmed {A} (m : M A) : Prop :=
  ∀ s a s', m s = (inr a, s') → st_rollback s' = [].

(** The calls an export of the instance [i] may make, with their
    arguments: the tools on the source and the destination, [open] and
    [write] on the two sidecars, [os.stat] on the destination,
    [os.unlink] and the compression when the flag is set, and the
    rollback's [rmtree]. *)
Definition issued_by (i : instance) (e : event) : Prop :=
  let m := manager_of i in
  match e with
  | EvCp a b => a = DiskExportManager.src m ∧ b = DiskExportManager.dst m
  | EvSparse p _ => p = DiskExportManager.dst m
  | EvRebase p b safe =>
      match i with
      | FileInstance _ => False
      | TemplateInstance self =>
          p = DiskExportManager.dst m ∧
          if TemplateExportManager.standalone self
          then b = "" ∧ safe = None
          else safe = Some false
      end
  | EvGetHash p algo => p = DiskExportManager.dst m ∧ algo = "sha1"
  | EvCompress p z =>
      DiskExportManager.do_compress m = true ∧
      p = DiskExportManager.dst m ∧ z = 16777216%Z
  | EvOpen p | EvWrite p _ =>
      p = DiskExportManager.dst m ++ ".hash" ∨
      p = DiskExportManager.dst m ++ ".metadata"
  | EvStat p => p = DiskExportManager.dst m
  | EvUnlink p =>
      DiskExportManager.do_compress m = true ∧ p = DiskExportManager.dst m
  | EvRmtree p => p = DiskExportManager.dst m
  | EvQemuInfo _ => False
  end.

(** A relation between the state before and after a computation: the
    file systems are related by [Rfs], and the calls made in between all
    satisfy [okev]. *)
Definition within (Rfs : relation (gmap string node)) (okev : event → Prop)
    (s s' : state) : Prop :=
  Rfs (st_fs s) (st_fs s') ∧
  ∃ t, st_trace s' = (st_trace s ++ t)%list ∧ Forall okev t.

Definition keeps {A} (Rfs : relation (gmap string node))
    (okev : event → Prop) (m : M A) : Prop :=
  ∀ s r s', m s = (r, s') → within Rfs okev s s'.

(** What a relation on file systems has to admit for the export of the
    manager [m] to keep it: the effect of each tool as the export calls
    it, the writes to the sidecars, and the removal of the destination. *)
Record fs_rules (E : Env) (m : DiskExportManager.t)
    (Rfs : relation (gmap string node)) : Prop := mkFsRules {
  fr_refl : ∀ f, Rfs f f;
  fr_trans : ∀ f1 f2 f3, Rfs f1 f2 → Rfs f2 f3 → Rfs f1 f3;
  fr_cp :
    ∀ f, Rfs f (tool_cp E (DiskExportManager.src m)
                  (DiskExportManager.dst m) f).2;
  fr_sparse : ∀ fmt f, Rfs f (tool_sparse E (DiskExportManager.dst m) fmt f).2;
  fr_compress :
    ∀ f, Rfs f (tool_compress E (DiskExportManager.dst m) 16777216 f).2;
  fr_rebase :
    ∀ b safe f, Rfs f (tool_qemu_rebase E (DiskExportManager.dst m) b safe f).2;
  fr_hash : ∀ f n, Rfs f (<[DiskExportManager.dst m ++ ".hash" := n]> f);
  fr_metadata :
    ∀ f n, Rfs f (<[DiskExportManager.dst m ++ ".metadata" := n]> f);
  fr_unlink : ∀ f, Rfs f (delete (DiskExportManager.dst m) f);
  fr_rmtree :
    ∀ f, Rfs f (filter (λ kv, Os.outside (DiskExportManager.dst m) kv.1 = true) f)
}.

(** Paths are the keys of the file system as they are spelled.  A path
    in normal form is absolute and has no empty, ['.'] or ['..']
    component (so no doubled or trailing ['/']): two paths in normal form
    name the same file only when they are the same string, and one lies
    below the other exactly when the other, followed by ['/'], is a
    prefix of it. *)
Fixpoint path_components (p : string) : list string :=
  match p with
  | EmptyString => [EmptyString]
  | String c r =>
      if Ascii.eqb c "/"%char then EmptyString :: path_components r
      else match path_components r with
           | [] => [String c EmptyString]
           | x :: xs => String c x :: xs
           end
  end.

Definition proper_component (c : string) : bool :=
  negb (String.eqb c "" || String.eqb c "." || String.eqb c "..").

Definition normal_path (p : string) : bool :=
  match path_components p with
  | root :: c :: cs => String.eqb root "" && forallb proper_component (c :: cs)
  | _ => false
  end.

(** The tools, as the export of [m] calls them, leave the path [p] as it
    is. *)
Definition tools_keep (E : Env) (m : DiskExportManager.t) (p : string)
    : Prop :=
  (∀ f, (tool_cp E (DiskExportManager.src m) (DiskExportManager.dst m) f).2
        !! p = f !! p) ∧
  (∀ fmt f, (tool_sparse E (DiskExportManager.dst m) fmt f).2 !! p = f !! p) ∧
  (∀ f, (tool_compress E (DiskExportManager.dst m) 16777216 f).2 !! p
        = f !! p) ∧
  (∀ b safe f,
     (tool_qemu_rebase E (DiskExportManager.dst m) b safe f).2 !! p = f !! p).

(** A value that is no reference to a container. *)
Definition scalar (v : value) : bool :=
  match v with
  | VRef _ => false
  | _ => true
  end.

(** The keys the export sets in [exported_metadata]. *)
Definition enrichment_keys : list string :=
  ["sha1"; "size"; "name"; "version"; "base"].

(** ** Concrete scenarios

    A small world to run the exports in: a prefix holding one image, an
    output directory, and tools that behave like the real ones ([cp]
    copies a regular file, [xz --keep] leaves its output next to the
    input). *)

Module Scenario.

Definition cp (src dst : string) (f : gmap string node)
    : option exn * gmap string node :=
  match f !! src with
  | Some (File data) => (None, <[dst := File data]> f)
  | _ => (Some (ToolError "cp" src), f)
  end.

Definition sparsify (ok : bool) (p : string) (fmt : value)
    (f : gmap string node) : option exn * gmap string node :=
  if ok then (None, f) else (Some (ToolError "virt-sparsify" p), f).

Definition xz (p : string) (block_size : Z) (f : gmap string node)
    : option exn * gmap string node :=
  match f !! p with
  | Some (File data) => (None, <[p ++ ".xz" := File ("xz:" ++ data)]> f)
  | _ => (Some (ToolError "xz" p), f)
  end.

Definition qemu_rebase (target backing_file : string) (safe : option bool)
    (f : gmap string node) : option exn * gmap string node :=
  match f !! target with
  | Some (File _) => (None, f)
  | _ => (Some (ToolError "qemu-img" target), f)
  end.

Definition quote : string := String (ascii_of_nat 34) EmptyString.

Fixpoint dumps (j : json) : string :=
  match j with
  | JNull => "null"
  | JBool true => "true"
  | JBool false => "false"
  | JInt z => pretty z
  | JStr x => quote ++ x ++ quote
  | JArr js =>
      "[" ++ (fix go (l : list json) : string :=
                match l with
                | [] => ""
                | x :: r => dumps x ++ "," ++ go r
                end) js ++ "]"
  | JObj kvs =>
      "{" ++ (fix go (l : list (string * json)) : string :=
                match l with
                | [] => ""
                | (k, x) :: r =>
                    quote ++ k ++ quote ++ ":" ++ dumps x ++ "," ++ go r
                end) kvs ++ "}"
  end.

(** The environment: [chain] is what [qemu-img info --backing-chain]
    reports, [sparse_ok] whether [virt-sparsify] succeeds. *)
Definition env (chain : list (gmap string value)) (sparse_ok : bool) : Env :=
  mkEnv (λ p, p) (λ _, "20261104.0") (λ algo data, algo ++ ":" ++ data)
        dumps (λ _ _, "{") (λ _ _, true) 4096 100
        cp (sparsify sparse_ok) xz qemu_rebase (λ _ _, inr chain).

(** A backing chain entry as [qemu-img] prints it. *)
Definition layer (backing : string) : gmap string value :=
  <["backing-filename" := VStr backing]> (<["format" := VStr "qcow2"]> ∅).
Definition base_image : gmap string value :=
  <["format" := VStr "qcow2"]> ∅.

(** The caller's heap: a disk descriptor of each kind, sharing one
    metadata dict that already uses the keys the export sets. *)
Definition metadata : gmap string value :=
  <["distro" := VStr "el7"]> (
  <["sha1" := VStr "stale"]> (
  <["size" := VInt 1]> (
  <["name" := VStr "old-name"]> (
  <["version" := VStr "v0"]> (
  <["base" := VStr "old-base"]> ∅))))).

Definition descriptor (disk_type : string) : gmap string value :=
  <["path" := VStr "/prefix/vm0.qcow2"]> (
  <["type" := VStr disk_type]> (
  <["format" := VStr "qcow2"]> (
  <["metadata" := VRef 1%positive]> ∅))).

Definition heap : gmap loc object :=
  <[1%positive := ODict metadata]> (
  <[2%positive := ODict (descriptor "file")]> (
  <[3%positive := ODict (descriptor "template")]> (
  <[4%positive := ODict (descriptor "floppy")]> ∅))).

Definition files : gmap string node :=
  <["/prefix/vm0.qcow2" := File "DATA"]> (<["/out" := Dir]> ∅).

Definition start : state := mkState files heap [] [].

Definition file_disk : value := VRef 2%positive.
Definition template_disk : value := VRef 3%positive.
Definition floppy_disk : value := VRef 4%positive.

Definition standalone (b : bool) : gmap string bool :=
  <["standalone" := b]> ∅.

(** Build the manager for a disk and run its export. *)
Definition run (E : Env) (disk : value) (do_compress : bool)
    (kwargs : gmap string bool) : M unit :=
  i ← get_instance_by_type E "/out" disk do_compress kwargs;
  export E i.

(** The manager objects the constructor returns from [start]; the copy
    of the metadata lands at the first free location, 5. *)
Definition file_manager (do_compress : bool) : DiskExportManager.t :=
  DiskExportManager.mk "/prefix/vm0.qcow2" "vm0.qcow2" "/out/vm0.qcow2"
    (VStr "file") file_disk (VRef 5%positive) do_compress.

Definition template_manager (chain : list (gmap string value))
    (standalone : bool) : TemplateExportManager.t :=
  TemplateExportManager.mk
    (DiskExportManager.mk "/prefix/vm0.qcow2" "vm0.qcow2" "/out/vm0.qcow2"
       (VStr "template") template_disk (VRef 5%positive) false)
    standalone chain.

Definition constructed : state :=
  mkState files (<[5%positive := ODict metadata]> heap) [] [].

(** The state once [cp] has put the image at the destination. *)
Definition copied : state :=
  mkState (<["/out/vm0.qcow2" := File "DATA"]> files)
          (<[5%positive := ODict metadata]> heap) [] [].

(** Backing chains: an image on a template of Lago's store, an image on
    a backing file named without a colon, and two layers on a base. *)
Definition store_chain : list (gmap string value) :=
  [layer "/var/lib/lago/store/phx_repo:el7-base:v1"; base_image].
Definition plain_chain : list (gmap string value) :=
  [layer "/var/lib/lago/base.qcow2"; base_image].
Definition deep_chain : list (gmap string value) :=
  [layer "/store/repo:layer2:v1"; layer "/store/repo:layer1:v1";
   base_image].

End Scenario.

(** * Reasoning principles *)

(** ** Strings *)

Lemma string_app_inv_l (p a b : string) : p ++ a = p ++ b → a = b.
Proof. induction p as [|c p IH]; simpl; [done|]. intros [= H]. auto. Qed.

Lemma string_app_nil_r (p : string) : p ++ "" = p.
Proof.
  induction p as [|c p IH]; [done|].
  change (String c (p ++ "") = String c p). by rewrite IH.
Qed.

Lemma string_app_ne_self (p a : string) : a ≠ "" → p ++ a ≠ p.
Proof.
  intros Ha H. apply Ha. apply (string_app_inv_l p).
  by rewrite H, string_app_nil_r.
Qed.

Lemma hash_ne_dst (p : string) : p ++ ".hash" ≠ p.
Proof. by apply string_app_ne_self. Qed.

Lemma metadata_ne_dst (p : string) : p ++ ".metadata" ≠ p.
Proof. by apply string_app_ne_self. Qed.

Lemma metadata_ne_hash (p : string) : p ++ ".metadata" ≠ p ++ ".hash".
Proof. intros H. by apply string_app_inv_l in H. Qed.

(** ** The monad *)

Lemma bind_unfold {A B} (m : M A) (k : A → M B) (s : state) :
  (m ≫= k) s =
  match m s with
  | (inl e, s') => (inl e, s')
  | (inr a, s') => k a s'
  end.
Proof. reflexivity. Qed.

Lemma bind_inr {A B} (m : M A) (k : A → M B) s b s' :
  (m ≫= k) s = (inr b, s') →
  ∃ a s1, m s = (inr a, s1) ∧ k a s1 = (inr b, s').
Proof.
  rewrite bind_unfold. destruct (m s) as [[e|a] s1]; [done|]. eauto.
Qed.

Lemma bind_inl {A B} (m : M A) (k : A → M B) s e s' :
  (m ≫= k) s = (inl e, s') →
  m s = (inl e, s') ∨ ∃ a s1, m s = (inr a, s1) ∧ k a s1 = (inl e, s').
Proof.
  rewrite bind_unfold. destruct (m s) as [[e1|a] s1]; intros H.
  - left. by simplify_eq.
  - right. eauto.
Qed.

Lemma bind_run_inr {A B} (m : M A) (k : A → M B) s a s1 :
  m s = (inr a, s1) → (m ≫= k) s = k a s1.
Proof. intros H. by rewrite bind_unfold, H. Qed.

Lemma bind_run_inl {A B} (m : M A) (k : A → M B) s e s1 :
  m s = (inl e, s1) → (m ≫= k) s = (inl e, s1).
Proof. intros H. by rewrite bind_unfold, H. Qed.

Lemma run_tool_inr e t s s' :
  run_tool e t s = (inr tt, s') →
  ∃ f, t (st_fs s) = (None, f) ∧ s' = set_fs f (emit e s).
Proof.
  unfold run_tool. simpl. destruct (t (st_fs s)) as [[x|] f]; [done|].
  intros [= <-]. eauto.
Qed.

Lemma run_tool_trace e t s r s' :
  run_tool e t s = (r, s') →
  st_trace s' = (st_trace s ++ [e])%list ∧ st_heap s' = st_heap s ∧
  st_rollback s' = st_rollback s.
Proof.
  unfold run_tool. simpl. destruct (t (st_fs s)) as [[x|] f];
    intros [= <- <-]; done.
Qed.

Lemma bind_keywords_run kwargs s :
  bind_keywords kwargs s =
  (if keywords_bind kwargs then inr tt else inl TypeError, s).
Proof. unfold bind_keywords. by destruct (keywords_bind kwargs). Qed.

(** A keyword that is no parameter name does not matter to the binding. *)
Lemma keywords_bind_delete kwargs k :
  k ∉ positional →
  keywords_bind (delete k kwargs) = keywords_bind kwargs.
Proof.
  unfold keywords_bind. generalize positional. intros ps Hk.
  induction ps as [|p ps IH]; [done|].
  apply not_elem_of_cons in Hk as [Hne Hk]. simpl.
  rewrite IH by done. by rewrite lookup_delete_ne.
Qed.

(** Break a successful run of a sequence into its steps. *)
Ltac inv_bind H :=
  let a := fresh "a" in
  let s1 := fresh "s" in
  let H1 := fresh "Hstep" in
  apply bind_inr in H as (a & s1 & H1 & H);
  try match type of a with unit => destruct a end.

(** ** The steps of the pipeline, one by one *)

Ltac munfold :=
  unfold mbind, M_bind, bind, mret, M_ret, ret, raise, log, modify,
    get_state, lift_res in *.

Ltac state_eq :=
  unfold set_heap, set_fs, set_rollback, emit; simpl;
  f_equal; rewrite ?insert_insert_eq, <- ?app_assoc; done.

Section steps.
Context (E : Env).
Import DiskExportManager.

Lemma copy_inr m s s' :
  copy E m s = (inr tt, s') →
  ∃ f, tool_cp E (src m) (dst m) (st_fs s) = (None, f) ∧
       s' = mkState f (st_heap s) (st_trace s ++ [EvCp (src m) (dst m)])
                    (st_rollback s).
Proof. intros (f & ? & ->)%run_tool_inr. by exists f. Qed.

Lemma sparse_inr m s s' :
  sparse E m s = (inr tt, s') →
  ∃ fmt f,
    Py.getitem (disk m) "format" s = (inr fmt, s) ∧
    tool_sparse E (dst m) fmt (st_fs s) = (None, f) ∧
    s' = mkState f (st_heap s) (st_trace s ++ [EvSparse (dst m) fmt])
                 (st_rollback s).
Proof.
  unfold sparse. intros H. inv_bind H.
  assert (s0 = s) as ->.
  { revert Hstep. unfold Py.getitem. repeat case_match; congruence. }
  apply run_tool_inr in H as (f & ? & ->). by exists a, f.
Qed.

Lemma calc_sha_inr m algo s s' :
  calc_sha E m algo s = (inr tt, s') →
  ∃ data l d,
    st_fs s !! dst m = Some (File data) ∧
    exported_metadata m = VRef l ∧
    st_heap s !! l = Some (ODict d) ∧
    s' = mkState
           (<[dst m ++ ".hash" := File (digest E algo data)]> (st_fs s))
           (<[l := ODict (<[algo := VStr (digest E algo data)]> d)]> (st_heap s))
           (st_trace s ++ [EvOpen (dst m ++ ".hash"); EvGetHash (dst m) algo;
                           EvWrite (dst m ++ ".hash") (digest E algo data)])
           (st_rollback s).
Proof.
  unfold calc_sha, Os.open_wt, get_hash, Os.write, Py.setitem. munfold.
  simpl. intros H.
  repeat (case_match; simplify_eq/=).
  all: try (rewrite lookup_insert_ne in * by apply hash_ne_dst).
  all: simplify_map_eq.
  all: eexists _, _, _; split_and!; [done..|state_eq].
Qed.

Lemma update_lago_metadata_inr m s s' :
  update_lago_metadata E m s = (inr tt, s') →
  ∃ n l d,
    st_fs s !! dst m = Some n ∧
    exported_metadata m = VRef l ∧
    st_heap s !! l = Some (ODict d) ∧
    s' = mkState (st_fs s)
           (<[l := ODict (<["version" := VStr (strftime E "%Y%m%d.0")]>
                         (<["name" := VStr (name m)]>
                         (<["size" := VInt (match n with
                                            | File data => Z.of_nat (String.length data)
                                            | Dir => dir_size E
                                            end)]> d)))]> (st_heap s))
           (st_trace s ++ [EvStat (dst m)])
           (st_rollback s).
Proof.
  unfold update_lago_metadata, Os.stat_size, Py.setitem. munfold.
  simpl. intros H.
  repeat (case_match; simplify_eq/=).
  all: simplify_map_eq.
  all: eexists _, _, _; split_and!; [done..|state_eq].
Qed.

Lemma write_lago_metadata_inr m s s' :
  write_lago_metadata E m s = (inr tt, s') →
  ∃ j,
    Py.to_json (recursion_limit E) ∅ (st_heap s) (exported_metadata m) = inr j ∧
    s' = mkState
           (<[dst m ++ ".metadata" := File (json_dumps E j)]> (st_fs s))
           (st_heap s)
           (st_trace s ++ [EvOpen (dst m ++ ".metadata");
                           EvWrite (dst m ++ ".metadata") (json_dumps E j)])
           (st_rollback s).
Proof.
  unfold write_lago_metadata, Os.open_wt, Os.write. munfold.
  simpl. intros H.
  repeat (case_match; simplify_eq/=).
  all: simplify_map_eq.
  all: eexists; split; [done|state_eq].
Qed.

Lemma compress_inr m s s' :
  compress E m s = (inr tt, s') →
  if do_compress m then
    ∃ f data,
      tool_compress E (dst m) 16777216 (st_fs s) = (None, f) ∧
      f !! dst m = Some (File data) ∧
      s' = mkState (delete (dst m) f) (st_heap s)
             (st_trace s ++ [EvCompress (dst m) 16777216; EvUnlink (dst m)])
             (st_rollback s)
  else s' = s.
Proof.
  unfold compress. destruct (do_compress m); simpl.
  - unfold Os.unlink, run_tool. munfold. simpl. intros H.
    repeat (case_match; simplify_eq/=).
    eexists _, _; split_and!; [done..|state_eq].
  - by intros [= ->].
Qed.
End steps.

(** ** The template steps *)

Section template_steps.
Context (E : Env).
Import TemplateExportManager.

Lemma rebase_inr self s s' :
  rebase E self s = (inr tt, s') →
  ∃ f rb,
    rebase_calls self rb ∧
    s' = mkState f (st_heap s) (st_trace s ++ rb) (st_rollback s).
Proof.
  unfold rebase. destruct (Nat.eqb (length (src_qemu_info self)) 1) eqn:Hlen.
  - apply Nat.eqb_eq in Hlen. intros [= <-].
    exists (st_fs s), []. split; [by constructor|].
    destruct s; simpl. by rewrite app_nil_r.
  - apply Nat.eqb_neq in Hlen.
    destruct (standalone self) eqn:Hst.
    + intros (f & ? & ->)%run_tool_inr. eexists f, _.
      split; [by apply rebase_merge|done].
    + destruct (Nat.ltb 2 (length (src_qemu_info self))) eqn:Hdeep; [done|].
      apply Nat.ltb_ge in Hdeep.
      destruct (src_qemu_info self) as [|entry rest] eqn:Hinfo; [done|].
      munfold. simpl.
      destruct (entry !! "backing-filename") as [[| | |bf|]|] eqn:Hbf;
        try done.
      destruct (PyStr.after_colon bf) as [tail|] eqn:Htail; [|done].
      intros (f & ? & ->)%run_tool_inr. eexists f, _.
      split; [|done].
      eapply rebase_layer; eauto. simpl in *. lia.
Qed.

Lemma rebase_too_deep self s :
  standalone self = false →
  2 < length (src_qemu_info self) →
  rebase E self s = (inl (LagoUserException layered_msg), s).
Proof.
  intros Hst Hlen. unfold rebase. rewrite Hst.
  destruct (Nat.eqb (length (src_qemu_info self)) 1) eqn:H1.
  { apply Nat.eqb_eq in H1. lia. }
  apply Nat.ltb_lt in Hlen. by rewrite Hlen.
Qed.

Lemma template_update_inr self s s' :
  update_lago_metadata E self s = (inr tt, s') →
  ∃ n l d,
    st_fs s !! DiskExportManager.dst (base self) = Some n ∧
    DiskExportManager.exported_metadata (base self) = VRef l ∧
    st_heap s !! l = Some (ODict d) ∧
    s' = mkState (st_fs s)
           (<[l := ODict
                (<["base" := VStr (if standalone self then "None"
                                   else PyStr.basename
                                          (DiskExportManager.src (base self)))]>
                (<["version" := VStr (strftime E "%Y%m%d.0")]>
                (<["name" := VStr (DiskExportManager.name (base self))]>
                (<["size" := VInt (match n with
                                   | File data => Z.of_nat (String.length data)
                                   | Dir => dir_size E
                                   end)]> d))))]> (st_heap s))
           (st_trace s ++ [EvStat (DiskExportManager.dst (base self))])
           (st_rollback s).
Proof.
  unfold update_lago_metadata. intros H. inv_bind H.
  apply update_lago_metadata_inr in Hstep
    as (n & l & d & Hn & Hl & Hd & ->).
  exists n, l, d. split_and!; [done..|].
  rewrite Hl in H. revert H. unfold Py.setitem. simpl.
  destruct (standalone self); simpl; rewrite lookup_insert_eq;
    intros [= <-]; state_eq.
Qed.
End template_steps.

(** ** The rollback scope *)

Lemma rmtree_spec p ig s :
  ∃ r f, Os.rmtree p ig s =
         (r, mkState f (st_heap s) (st_trace s ++ [EvRmtree p]) (st_rollback s)) ∧
         (ig = true → r = inr tt) ∧
         (st_fs s !! p ≠ Some Dir → f = st_fs s) ∧
         (st_fs s !! p = Some Dir → f !! p = None).
Proof.
  unfold Os.rmtree. munfold. simpl.
  destruct (st_fs s !! p) as [[data|]|] eqn:Hp.
  - destruct ig; eexists _, _; split_and!; try done.
  - eexists _, _; split_and!; try done.
    intros _. apply map_lookup_filter_None. right. intros n _.
    unfold Os.outside. simpl. rewrite String.eqb_refl. done.
  - destruct ig; eexists _, _; split_and!; try done.
Qed.

Lemma scope_unfold {A} (body : M A) s :
  RollbackContext.scope body s =
  let r := body (set_rollback [] s) in
  (r.1, set_rollback (st_rollback s)
          (RollbackContext.unwind (st_rollback r.2) r.2)).
Proof. unfold RollbackContext.scope. by destruct (body _). Qed.

(** ** The JSON encoder on a dict *)

Lemma encode_items_lookup rec (kvs : list (string * value)) js k v :
  NoDup kvs.*1 →
  (k, v) ∈ kvs →
  Py.encode_items rec kvs = inr js →
  ∃ j, rec v = inr j ∧ assoc_get k js = Some j.
Proof.
  revert js. induction kvs as [|[k' v'] kvs IH]; intros js Hnd Hin; simpl.
  { by apply elem_of_nil in Hin. }
  destruct (rec v') as [e|j'] eqn:Hv'; [done|].
  destruct (Py.encode_items rec kvs) as [e|js'] eqn:Hrest; [done|].
  intros [= <-]. simpl.
  apply NoDup_cons in Hnd as [Hk' Hnd].
  apply elem_of_cons in Hin as [[= -> ->]|Hin].
  - exists j'. by rewrite String.eqb_refl.
  - destruct (IH js' Hnd Hin eq_refl) as (j & Hj & Hget).
    exists j. split; [done|].
    destruct (String.eqb k k') eqn:Hkk; [|done].
    apply String.eqb_eq in Hkk as ->. exfalso. apply Hk'.
    apply list_elem_of_fmap. by exists (k', v).
Qed.

Lemma to_json_dict_lookup fuel h l d j k v jv :
  h !! l = Some (ODict d) →
  Py.to_json fuel ∅ h (VRef l) = inr j →
  d !! k = Some v →
  (∀ f ms, Py.to_json f ms h v = inr jv) →
  json_get k j = Some jv.
Proof.
  intros Hl Hj Hk Hv. destruct fuel as [|f]; simpl in Hj.
  { by rewrite decide_False in Hj by set_solver. }
  rewrite decide_False in Hj by set_solver. rewrite Hl in Hj.
  destruct (Py.encode_items _ _) as [e|kvs] eqn:Henc; [done|].
  injection Hj as <-. simpl.
  eapply encode_items_lookup in Henc as (j' & Hj' & Hget).
  - rewrite Hv in Hj'. by injection Hj' as <-.
  - apply NoDup_fst_map_to_list.
  - by apply elem_of_map_to_list.
Qed.

(** ** A successful export, step by step *)

Section success.
Context (E : Env).

Lemma file_export_inr self s s' :
  FileExportManager.export E self s = (inr tt, s') →
  ∃ s6 data j fmt l d,
    exported E (FileInstance self) s s6 s' data j [] fmt l d.
Proof.
  unfold FileExportManager.export. rewrite scope_unfold.
  destruct (FileExportManager.export_body E self (set_rollback [] s))
    as [r sb] eqn:Hbody.
  simpl. intros [= -> <-].
  unfold FileExportManager.export_body in Hbody.
  inv_bind Hbody. injection Hstep as <-.
  inv_bind Hbody. apply copy_inr in Hstep as (f1 & Hcp & ->).
  inv_bind Hbody. apply sparse_inr in Hstep as (fmt & f2 & Hfmt & Hsp & ->).
  inv_bind Hbody.
  apply calc_sha_inr in Hstep as (data & l & d & Hdata & Hl & Hd & ->).
  inv_bind Hbody.
  apply update_lago_metadata_inr in Hstep as (n & l' & d' & Hn & Hl' & Hd' & ->).
  inv_bind Hbody. apply write_lago_metadata_inr in Hstep as (j & Hj & ->).
  inv_bind Hbody. injection Hbody as <-.
  simpl in *. rewrite Hl in Hl'. injection Hl' as <-.
  rewrite lookup_insert_eq in Hd'. injection Hd' as <-.
  rewrite lookup_insert_ne in Hn by apply hash_ne_dst.
  rewrite Hdata in Hn. injection Hn as <-.
  rewrite Hl in Hj.
  lazymatch type of Hstep with
  | DiskExportManager.compress _ _ ?x = _ => exists x
  end.
  eexists data, j, fmt, l, _.
  split; simpl.
  - done.
  - rewrite !lookup_insert_ne; [done|..];
      auto using hash_ne_dst, metadata_ne_dst.
  - rewrite lookup_insert_ne by apply metadata_ne_hash.
    by rewrite lookup_insert_eq.
  - by rewrite lookup_insert_eq.
  - done.
  - by rewrite lookup_insert_eq.
  - done.
  - by simplify_map_eq.
  - by simplify_map_eq.
  - by simplify_map_eq.
  - by simplify_map_eq.
  - done.
  - rewrite <- !app_assoc. done.
  - eexists. split; [done|]. done.
Qed.

Lemma template_export_inr self s s' :
  TemplateExportManager.export E self s = (inr tt, s') →
  ∃ s6 data j rb fmt l d,
    exported E (TemplateInstance self) s s6 s' data j rb fmt l d.
Proof.
  unfold TemplateExportManager.export. rewrite scope_unfold.
  destruct (TemplateExportManager.export_body E self (set_rollback [] s))
    as [r sb] eqn:Hbody.
  simpl. intros [= -> <-].
  unfold TemplateExportManager.export_body in Hbody.
  inv_bind Hbody. injection Hstep as <-.
  inv_bind Hbody. apply copy_inr in Hstep as (f1 & Hcp & ->).
  inv_bind Hbody. apply sparse_inr in Hstep as (fmt & f2 & Hfmt & Hsp & ->).
  inv_bind Hbody. apply rebase_inr in Hstep as (f3 & rb & Hrb & ->).
  inv_bind Hbody.
  apply calc_sha_inr in Hstep as (data & l & d & Hdata & Hl & Hd & ->).
  inv_bind Hbody.
  apply template_update_inr in Hstep as (n & l' & d' & Hn & Hl' & Hd' & ->).
  inv_bind Hbody. apply write_lago_metadata_inr in Hstep as (j & Hj & ->).
  inv_bind Hbody. injection Hbody as <-.
  simpl in *. rewrite Hl in Hl'. injection Hl' as <-.
  rewrite lookup_insert_eq in Hd'. injection Hd' as <-.
  rewrite lookup_insert_ne in Hn by apply hash_ne_dst.
  rewrite Hdata in Hn. injection Hn as <-.
  rewrite Hl in Hj.
  lazymatch type of Hstep with
  | DiskExportManager.compress _ _ ?x = _ => exists x
  end.
  eexists data, j, rb, fmt, l, _.
  split; simpl.
  - done.
  - rewrite !lookup_insert_ne; [done|..];
      auto using hash_ne_dst, metadata_ne_dst.
  - rewrite lookup_insert_ne by apply metadata_ne_hash.
    by rewrite lookup_insert_eq.
  - by rewrite lookup_insert_eq.
  - done.
  - by rewrite lookup_insert_eq.
  - done.
  - by simplify_map_eq.
  - by simplify_map_eq.
  - by simplify_map_eq.
  - by simplify_map_eq.
  - by simplify_map_eq.
  - rewrite <- !app_assoc. done.
  - eexists. split; [done|]. done.
Qed.

Lemma export_inr i s s' :
  export E i s = (inr tt, s') →
  ∃ s6 data j rb fmt l d, exported E i s s6 s' data j rb fmt l d.
Proof.
  destruct i as [self|self]; simpl; intros H.
  - apply file_export_inr in H as (s6 & data & j & fmt & l & d & H).
    by exists s6, data, j, [], fmt, l, d.
  - by apply template_export_inr.
Qed.
End success.

(** ** Frames: what the pipeline leaves alone *)

Create HintDb respects.

Section frame.
Variable h0 : gmap loc object.

Lemma stable_refl s : stable h0 s s.
Proof. by split. Qed.

Lemma stable_trans s1 s2 s3 :
  stable h0 s1 s2 → stable h0 s2 s3 → stable h0 s1 s3.
Proof. intros [H1 H2] [H3 H4]. split; [congruence|auto]. Qed.

Lemma respects_bind {A B} (m : M A) (k : A → M B) :
  respects h0 m → (∀ a, respects h0 (k a)) → respects h0 (m ≫= k).
Proof.
  intros Hm Hk s r s'. rewrite bind_unfold.
  destruct (m s) as [[e|a] s1] eqn:Hms.
  - intros [= <- <-]. by eapply Hm.
  - intros Hks. eapply stable_trans; [by eapply Hm|by eapply Hk].
Qed.

Lemma respects_ret {A} (a : A) : respects h0 (mret a).
Proof. intros s r s' [= <- <-]. apply stable_refl. Qed.

Lemma respects_raise {A} e : respects h0 (raise e : M A).
Proof. intros s r s' [= <- <-]. apply stable_refl. Qed.

Lemma respects_log e : respects h0 (log e).
Proof. intros s r s' [= <- <-]. by split. Qed.

Lemma respects_set_fs f : respects h0 (modify (set_fs f)).
Proof. intros s r s' [= <- <-]. by split. Qed.

Lemma respects_get_state : respects h0 get_state.
Proof. intros s r s' [= <- <-]. apply stable_refl. Qed.

Lemma respects_lift_res {A} (x : exn + A) : respects h0 (lift_res x).
Proof. intros s r s' [= <- <-]. apply stable_refl. Qed.

Lemma respects_run_tool e t : respects h0 (run_tool e t).
Proof.
  intros s r s'. unfold run_tool. simpl.
  destruct (t (st_fs s)) as [[x|] f]; intros [= <- <-]; by split.
Qed.

Lemma respects_getitem v k : respects h0 (Py.getitem v k).
Proof.
  intros s r s'. unfold Py.getitem.
  repeat case_match; intros [= <- <-]; apply stable_refl.
Qed.

Lemma respects_setitem v k x :
  fresh_for h0 v → respects h0 (Py.setitem v k x).
Proof.
  intros Hv s r s'. unfold Py.setitem.
  repeat case_match; intros [= <- <-]; try apply stable_refl.
  split; [done|]. simpl. intros Hh. by apply insert_subseteq_r.
Qed.

Hint Resolve respects_ret respects_raise respects_log respects_set_fs
  respects_get_state respects_lift_res respects_run_tool respects_getitem
  respects_setitem : respects.

Ltac respects_seq :=
  repeat first
    [ apply respects_bind; [|intros ?]
    | progress (eauto with respects)
    | match goal with
      | |- respects _ (match ?x with _ => _ end) => destruct x
      | |- respects _ (if ?x then _ else _) => destruct x
      end ].

Lemma respects_open_wt E p : respects h0 (Os.open_wt E p).
Proof. unfold Os.open_wt. respects_seq. Qed.

Lemma respects_write p data : respects h0 (Os.write p data).
Proof. unfold Os.write. respects_seq. Qed.

Lemma respects_stat_size E p : respects h0 (Os.stat_size E p).
Proof. unfold Os.stat_size. respects_seq. Qed.

Lemma respects_unlink p : respects h0 (Os.unlink p).
Proof. unfold Os.unlink. respects_seq. Qed.

Lemma respects_get_hash E p algo : respects h0 (get_hash E p algo).
Proof. unfold get_hash. respects_seq. Qed.

Hint Resolve respects_open_wt respects_write respects_stat_size
  respects_unlink respects_get_hash : respects.

Lemma respects_copy E m : respects h0 (DiskExportManager.copy E m).
Proof. unfold DiskExportManager.copy. respects_seq. Qed.

Lemma respects_sparse E m : respects h0 (DiskExportManager.sparse E m).
Proof. unfold DiskExportManager.sparse. respects_seq. Qed.

Lemma respects_compress E m : respects h0 (DiskExportManager.compress E m).
Proof. unfold DiskExportManager.compress. respects_seq. Qed.

Lemma respects_rebase E t : respects h0 (TemplateExportManager.rebase E t).
Proof. unfold TemplateExportManager.rebase. simpl. respects_seq. Qed.

Lemma respects_write_lago_metadata E m :
  respects h0 (DiskExportManager.write_lago_metadata E m).
Proof. unfold DiskExportManager.write_lago_metadata. respects_seq. Qed.

Section fresh.
Variable m : DiskExportManager.t.
Hypothesis Hfresh : fresh_for h0 (DiskExportManager.exported_metadata m).

Lemma respects_calc_sha E algo :
  respects h0 (DiskExportManager.calc_sha E m algo).
Proof. unfold DiskExportManager.calc_sha. respects_seq. Qed.

Lemma respects_update E :
  respects h0 (DiskExportManager.update_lago_metadata E m).
Proof. unfold DiskExportManager.update_lago_metadata. respects_seq. Qed.

Lemma respects_template_update E t :
  TemplateExportManager.base t = m →
  respects h0 (TemplateExportManager.update_lago_metadata E t).
Proof.
  intros Hb. unfold TemplateExportManager.update_lago_metadata.
  rewrite Hb. pose proof respects_update. respects_seq.
Qed.
End fresh.

Lemma respects_rmtree p ig : respects h0 (Os.rmtree p ig).
Proof. unfold Os.rmtree. respects_seq. Qed.

(** A failing sequence failed in its first part or in the rest. *)
Lemma bind_inl_stable {A B} (m : M A) (k : A → M B) s e s' :
  respects h0 m →
  (m ≫= k) s = (inl e, s') →
  stable h0 s s' ∨ ∃ a s1, stable h0 s s1 ∧ k a s1 = (inl e, s').
Proof.
  intros Hm [H|(a & s1 & H & Hk)]%bind_inl.
  - left. by eapply Hm.
  - right. exists a, s1. split; [by eapply Hm|done].
Qed.

(** ** Heap frames *)

Lemma respects_frames {A} (m : M A) : respects h0 m → frames h0 m.
Proof. intros Hm s r s' H. by apply (Hm s r s' H). Qed.

Lemma frames_bind {A B} (m : M A) (k : A → M B) :
  frames h0 m → (∀ a, frames h0 (k a)) → frames h0 (m ≫= k).
Proof.
  intros Hm Hk s r s'. rewrite bind_unfold.
  destruct (m s) as [[e|a] s1] eqn:Hms.
  - intros [= <- <-]. by eapply Hm.
  - intros Hks Hh. eapply Hk; [done|]. by eapply Hm.
Qed.

Lemma frames_set_rollback ds : frames h0 (modify (set_rollback ds)).
Proof. by intros s r s' [= <- <-]. Qed.

Lemma frames_prependDefer d : frames h0 (RollbackContext.prependDefer d).
Proof. by intros s r s' [= <- <-]. Qed.

Lemma unwind_frame ds s :
  h0 ⊆ st_heap s → h0 ⊆ st_heap (RollbackContext.unwind ds s).
Proof.
  revert s. induction ds as [|[p ig] ds IH]; intros s Hh; [done|].
  simpl. apply IH.
  destruct (Os.rmtree p ig s) as [r s1] eqn:Hrm. simpl.
  by apply (respects_rmtree p ig s r s1 Hrm).
Qed.

Lemma frames_scope {A} (body : M A) :
  frames h0 body → frames h0 (RollbackContext.scope body).
Proof.
  intros Hb s r s'. rewrite scope_unfold.
  destruct (body (set_rollback [] s)) as [rb sb] eqn:Hbody. simpl.
  intros [= <- <-] Hh. simpl. apply unwind_frame.
  by apply (Hb _ _ _ Hbody).
Qed.

Lemma frames_export E i :
  fresh_for h0 (DiskExportManager.exported_metadata (manager_of i)) →
  frames h0 (export E i).
Proof.
  intros Hfresh. destruct i as [self|self]; simpl in *;
    apply frames_scope.
  - unfold FileExportManager.export_body.
    apply frames_bind; [apply frames_prependDefer|intros _].
    apply frames_bind; [apply respects_frames, respects_copy|intros _].
    apply frames_bind; [apply respects_frames, respects_sparse|intros _].
    apply frames_bind;
      [by apply respects_frames, respects_calc_sha|intros _].
    apply frames_bind; [by apply respects_frames, respects_update|intros _].
    apply frames_bind;
      [apply respects_frames, respects_write_lago_metadata|intros _].
    apply frames_bind; [apply respects_frames, respects_compress|intros _].
    apply frames_set_rollback.
  - unfold TemplateExportManager.export_body.
    apply frames_bind; [apply frames_prependDefer|intros _].
    apply frames_bind; [apply respects_frames, respects_copy|intros _].
    apply frames_bind; [apply respects_frames, respects_sparse|intros _].
    apply frames_bind; [apply respects_frames, respects_rebase|intros _].
    apply frames_bind;
      [by apply respects_frames, respects_calc_sha|intros _].
    apply frames_bind;
      [by eapply respects_frames, respects_template_update|intros _].
    apply frames_bind;
      [apply respects_frames, respects_write_lago_metadata|intros _].
    apply frames_bind; [apply respects_frames, respects_compress|intros _].
    apply frames_set_rollback.
Qed.
End frame.

(** ** [copy.deepcopy] only allocates *)

Lemma alter_fresh_subseteq (h0 h : gmap loc object) f y :
  h0 !! y = None → h0 ⊆ h → h0 ⊆ alter f y h.
Proof.
  intros Hy Hh. apply map_subseteq_spec. intros l o Hl.
  rewrite lookup_alter_ne by congruence.
  by eapply lookup_weaken.
Qed.

Section deepcopy.
Variable rec : value → Py.cstate → (exn + value) * Py.cstate.
Hypothesis rec_frame : ∀ v c r c', rec v c = (r, c') → c.2 ⊆ c'.2.

Lemma copy_dict_items_frame y kvs c r c' (h0 : gmap loc object) :
  Py.copy_dict_items rec y kvs c = (r, c') →
  h0 !! y = None → h0 ⊆ c.2 → h0 ⊆ c'.2.
Proof.
  revert c. induction kvs as [|[k v] kvs IH]; intros c; simpl.
  { by intros [= <- <-]. }
  destruct (rec v c) as [[e|v'] [memo h]] eqn:Hv.
  - intros [= <- <-] _ Hh. etrans; [done|]. by apply (rec_frame _ _ _ _ Hv).
  - intros Hrest Hy Hh. apply (IH _ Hrest Hy). simpl.
    apply alter_fresh_subseteq; [done|].
    etrans; [done|]. by apply (rec_frame _ _ _ _ Hv).
Qed.

Lemma copy_list_items_frame y vs c r c' (h0 : gmap loc object) :
  Py.copy_list_items rec y vs c = (r, c') →
  h0 !! y = None → h0 ⊆ c.2 → h0 ⊆ c'.2.
Proof.
  revert c. induction vs as [|v vs IH]; intros c; simpl.
  { by intros [= <- <-]. }
  destruct (rec v c) as [[e|v'] [memo h]] eqn:Hv.
  - intros [= <- <-] _ Hh. etrans; [done|]. by apply (rec_frame _ _ _ _ Hv).
  - intros Hrest Hy Hh. apply (IH _ Hrest Hy). simpl.
    apply alter_fresh_subseteq; [done|].
    etrans; [done|]. by apply (rec_frame _ _ _ _ Hv).
Qed.
End deepcopy.

Lemma fresh_loc_None (h : gmap loc object) : h !! fresh (dom h) = None.
Proof. apply not_elem_of_dom, is_fresh. Qed.

Lemma deepcopy_rec_frame fuel v c r c' :
  Py.deepcopy_rec fuel v c = (r, c') → c.2 ⊆ c'.2.
Proof.
  revert v c r c'. induction fuel as [|f IH]; intros v [memo h] r c';
    destruct v as [| | | |l]; simpl; try by intros [= <- <-].
  - destruct (memo !! l); by intros [= <- <-].
  - destruct (memo !! l); [by intros [= <- <-]|].
    destruct (h !! l) as [[d|vs]|] eqn:Hl; [| |by intros [= <- <-]].
    + destruct (Py.copy_dict_items _ _ _ _) as [[e|] c1] eqn:Hitems;
        intros [= <- <-];
        (eapply (copy_dict_items_frame _ IH); [done|apply fresh_loc_None|]);
        simpl; apply insert_subseteq, fresh_loc_None.
    + destruct (Py.copy_list_items _ _ _ _) as [[e|] c1] eqn:Hitems;
        intros [= <- <-];
        (eapply (copy_list_items_frame _ IH); [done|apply fresh_loc_None|]);
        simpl; apply insert_subseteq, fresh_loc_None.
Qed.

Lemma deepcopy_rec_fresh fuel v h v' c' :
  Py.deepcopy_rec fuel v (∅, h) = (inr v', c') → fresh_for h v'.
Proof.
  destruct v as [| | | |l]; destruct fuel as [|f]; simpl;
    try by intros [= <- <-].
  rewrite lookup_empty.
  destruct (h !! l) as [[d|vs]|]; [| |by intros [=]].
  - destruct (Py.copy_dict_items _ _ _ _) as [[e|] c1]; intros [= <- <-].
    apply fresh_loc_None.
  - destruct (Py.copy_list_items _ _ _ _) as [[e|] c1]; intros [= <- <-].
    apply fresh_loc_None.
Qed.

Lemma deepcopy_frame E v s r s' :
  Py.deepcopy E v s = (r, s') →
  st_heap s ⊆ st_heap s' ∧
  match r with
  | inr v' => fresh_for (st_heap s) v'
  | inl _ => True
  end.
Proof.
  unfold Py.deepcopy.
  destruct (Py.deepcopy_rec _ _ _) as [r1 [memo h]] eqn:Hrec.
  intros [= <- <-]. simpl. split.
  - by apply deepcopy_rec_frame in Hrec.
  - destruct r1 as [e|v']; [done|]. by eapply deepcopy_rec_fresh.
Qed.

Lemma init_frame E dst disk_type disk dc s r s' :
  DiskExportManager.init E dst disk_type disk dc s = (r, s') →
  st_heap s ⊆ st_heap s' ∧
  match r with
  | inr m => fresh_for (st_heap s) (DiskExportManager.exported_metadata m)
  | inl _ => True
  end.
Proof.
  unfold DiskExportManager.init. rewrite bind_unfold.
  destruct (Py.getitem disk "path" s) as [[e|p] s1] eqn:Hp.
  { intros [= <- <-]. split; [|done].
    by apply (respects_getitem (st_heap s) _ _ _ _ _ Hp). }
  assert (s1 = s) as ->.
  { revert Hp. unfold Py.getitem. repeat case_match; congruence. }
  rewrite bind_unfold. destruct p as [| | |p|]; try by intros [= <- <-].
  simpl. rewrite bind_unfold.
  destruct (Py.getitem disk "metadata" s) as [[e|md] s1] eqn:Hmd.
  { intros [= <- <-]. split; [|done].
    by apply (respects_getitem (st_heap s) _ _ _ _ _ Hmd). }
  assert (s1 = s) as ->.
  { revert Hmd. unfold Py.getitem. repeat case_match; congruence. }
  rewrite bind_unfold.
  destruct (Py.deepcopy E md s) as [[e|md'] s1] eqn:Hcopy;
    apply deepcopy_frame in Hcopy as [Hh Hf]; by intros [= <- <-].
Qed.

Lemma get_instance_frame E dst disk dc kwargs s r s' :
  get_instance_by_type E dst disk dc kwargs s = (r, s') →
  st_heap s ⊆ st_heap s' ∧
  match r with
  | inr i =>
      fresh_for (st_heap s) (DiskExportManager.exported_metadata (manager_of i))
  | inl _ => True
  end.
Proof.
  unfold get_instance_by_type. rewrite bind_unfold.
  destruct (Py.getitem disk "type" s) as [[e|ty] s1] eqn:Hty.
  { intros [= <- <-]. split; [|done].
    by apply (respects_getitem (st_heap s) _ _ _ _ _ Hty). }
  assert (s1 = s) as ->.
  { revert Hty. unfold Py.getitem. repeat case_match; congruence. }
  rewrite bind_unfold.
  assert (∀ c : option cls,
    match c with
    | None => (inl (LagoUserException (unsupported_msg ty)), s)
    | Some ClsFile =>
        (self ← FileExportManager.init E dst ty disk dc kwargs;
         mret (FileInstance self)) s
    | Some ClsTemplate =>
        (self ← TemplateExportManager.init E dst ty disk dc kwargs;
         mret (TemplateInstance self)) s
    end = (r, s') →
    st_heap s ⊆ st_heap s' ∧
    match r with
    | inr i =>
        fresh_for (st_heap s)
          (DiskExportManager.exported_metadata (manager_of i))
    | inl _ => True
    end) as Hcls.
  { intros [[|]|].
    - rewrite bind_unfold. unfold FileExportManager.init.
      rewrite bind_unfold, bind_keywords_run.
      destruct (keywords_bind kwargs); [|by intros [= <- <-]].
      destruct (DiskExportManager.init E dst ty disk dc s)
        as [[e|m] s1] eqn:Hinit;
        apply init_frame in Hinit as [Hh Hf]; by intros [= <- <-].
    - rewrite bind_unfold. unfold TemplateExportManager.init.
      rewrite bind_unfold, bind_keywords_run.
      destruct (keywords_bind kwargs); [|by intros [= <- <-]].
      rewrite bind_unfold.
      destruct (DiskExportManager.init E dst ty disk dc s)
        as [[e|m] s1] eqn:Hinit;
        apply init_frame in Hinit as [Hh Hf]; [by intros [= <- <-]|].
      rewrite bind_unfold.
      destruct (kwargs !! "standalone") as [b|]; [|by intros [= <- <-]].
      simpl. munfold. simpl.
      destruct (tool_qemu_info E (DiskExportManager.src m) (st_fs s1));
        by intros [= <- <-].
    - by intros [= <- <-]. }
  destruct ty as [| | |t|l]; simpl; try apply (Hcls None).
  - destruct (HANDLERS !! t) as [[|]|] eqn:Hc.
    + apply (Hcls (Some ClsFile)).
    + apply (Hcls (Some ClsTemplate)).
    + apply (Hcls None).
  - by intros [= <- <-].
Qed.

(** The export writes to one object, the one [exported_metadata] names. *)
Lemma export_writes_copy_only E i s l o :
  DiskExportManager.exported_metadata (manager_of i) ≠ VRef l →
  st_heap s !! l = Some o →
  st_heap (export E i s).2 !! l = Some o.
Proof.
  intros Hne Hl.
  set (h0 := match DiskExportManager.exported_metadata (manager_of i) with
             | VRef lm => delete lm (st_heap s)
             | _ => st_heap s
             end).
  assert (fresh_for h0 (DiskExportManager.exported_metadata (manager_of i)))
    as Hfresh.
  { subst h0. destruct (DiskExportManager.exported_metadata _); simpl;
      try done. apply lookup_delete_eq. }
  assert (h0 ⊆ st_heap s) as Hsub.
  { subst h0. destruct (DiskExportManager.exported_metadata _);
      try done. apply delete_subseteq. }
  assert (h0 !! l = Some o) as Hl0.
  { subst h0. destruct (DiskExportManager.exported_metadata _) as [| | | |lm];
      try done. rewrite lookup_delete_ne; [done|congruence]. }
  destruct (export E i s) as [r s'] eqn:Hex. simpl.
  eapply lookup_weaken; [done|].
  by apply (frames_export h0 E i Hfresh _ _ _ Hex).
Qed.

(** ** The rollback list at the end of the body *)

Lemma fresh_for_empty v : fresh_for ∅ v.
Proof. by destruct v. Qed.

Lemma fails_armed_bind {A B} (m : M A) (k : A → M B) :
  respects ∅ m → (∀ a, fails_armed (k a)) → fails_armed (m ≫= k).
Proof.
  intros Hm Hk s e s' H.
  destruct (bind_inl_stable ∅ m k s e s' Hm H)
    as [[Hrb _]|(a & s1 & [Hrb _] & Hka)]; [done|].
  rewrite <- Hrb. by eapply Hk.
Qed.

Lemma fails_armed_clear : fails_armed RollbackContext.clear.
Proof. by intros s e s' [=]. Qed.

Lemma ends_disarmed_bind {A B} (m : M A) (k : A → M B) :
  (∀ a, ends_disarmed (k a)) → ends_disarmed (m ≫= k).
Proof.
  intros Hk s b s'. rewrite bind_unfold.
  destruct (m s) as [[e|a] s1]; [by intros [=]|]. apply Hk.
Qed.

Lemma ends_disarmed_clear : ends_disarmed RollbackContext.clear.
Proof. by intros s a s' [= <- <-]. Qed.

Lemma prependDefer_then {A} d (rest : M A) s :
  (RollbackContext.prependDefer d;; rest) s
  = rest (set_rollback (d :: st_rollback s) s).
Proof. by rewrite bind_unfold. Qed.

Lemma file_steps_rollback E self :
  fails_armed (DiskExportManager.copy E self;;
               DiskExportManager.sparse E self;;
               DiskExportManager.calc_sha E self "sha1";;
               DiskExportManager.update_lago_metadata E self;;
               DiskExportManager.write_lago_metadata E self;;
               DiskExportManager.compress E self;;
               RollbackContext.clear) ∧
  ends_disarmed (DiskExportManager.copy E self;;
                 DiskExportManager.sparse E self;;
                 DiskExportManager.calc_sha E self "sha1";;
                 DiskExportManager.update_lago_metadata E self;;
                 DiskExportManager.write_lago_metadata E self;;
                 DiskExportManager.compress E self;;
                 RollbackContext.clear).
Proof.
  pose proof (fresh_for_empty (DiskExportManager.exported_metadata self)).
  split.
  - apply fails_armed_bind; [apply respects_copy|intros _].
    apply fails_armed_bind; [apply respects_sparse|intros _].
    apply fails_armed_bind; [by apply respects_calc_sha|intros _].
    apply fails_armed_bind; [by apply respects_update|intros _].
    apply fails_armed_bind; [apply respects_write_lago_metadata|intros _].
    apply fails_armed_bind; [apply respects_compress|intros _].
    apply fails_armed_clear.
  - do 6 (apply ends_disarmed_bind; intros _). apply ends_disarmed_clear.
Qed.

Lemma template_steps_rollback E self :
  fails_armed (DiskExportManager.copy E (TemplateExportManager.base self);;
               DiskExportManager.sparse E (TemplateExportManager.base self);;
               TemplateExportManager.rebase E self;;
               DiskExportManager.calc_sha E (TemplateExportManager.base self)
                 "sha1";;
               TemplateExportManager.update_lago_metadata E self;;
               DiskExportManager.write_lago_metadata E
                 (TemplateExportManager.base self);;
               DiskExportManager.compress E (TemplateExportManager.base self);;
               RollbackContext.clear) ∧
  ends_disarmed (DiskExportManager.copy E (TemplateExportManager.base self);;
                 DiskExportManager.sparse E (TemplateExportManager.base self);;
                 TemplateExportManager.rebase E self;;
                 DiskExportManager.calc_sha E (TemplateExportManager.base self)
                   "sha1";;
                 TemplateExportManager.update_lago_metadata E self;;
                 DiskExportManager.write_lago_metadata E
                   (TemplateExportManager.base self);;
                 DiskExportManager.compress E
                   (TemplateExportManager.base self);;
                 RollbackContext.clear).
Proof.
  pose proof (fresh_for_empty
    (DiskExportManager.exported_metadata (TemplateExportManager.base self))).
  split.
  - apply fails_armed_bind; [apply respects_copy|intros _].
    apply fails_armed_bind; [apply respects_sparse|intros _].
    apply fails_armed_bind; [apply respects_rebase|intros _].
    apply fails_armed_bind; [by apply respects_calc_sha|intros _].
    apply fails_armed_bind; [by eapply respects_template_update|intros _].
    apply fails_armed_bind; [apply respects_write_lago_metadata|intros _].
    apply fails_armed_bind; [apply respects_compress|intros _].
    apply fails_armed_clear.
  - do 7 (apply ends_disarmed_bind; intros _). apply ends_disarmed_clear.
Qed.

(** When the body fails the action registered first is still armed; when
    it succeeds nothing is. *)
Lemma export_body_rollback E i s r sb :
  export_body_of E i s = (r, sb) →
  st_rollback sb =
  match r with
  | inl _ =>
      DeferRmtree (DiskExportManager.dst (manager_of i)) true :: st_rollback s
  | inr _ => []
  end.
Proof.
  destruct i as [self|self]; simpl;
    [unfold FileExportManager.export_body
    |unfold TemplateExportManager.export_body];
    rewrite prependDefer_then; intros Hrest.
  - destruct (file_steps_rollback E self) as [Hfail Hok].
    destruct r as [e|a]; [by apply Hfail in Hrest|by apply Hok in Hrest].
  - destruct (template_steps_rollback E self) as [Hfail Hok].
    destruct r as [e|a]; [by apply Hfail in Hrest|by apply Hok in Hrest].
Qed.

Lemma export_scope E i :
  export E i = RollbackContext.scope (export_body_of E i).
Proof. by destruct i. Qed.

(** ** Calls and files: what an export keeps to *)

Section keeps.
Context (Rfs : relation (gmap string node)) (okev : event → Prop).
Hypothesis Rfs_refl : ∀ f, Rfs f f.
Hypothesis Rfs_trans : ∀ f1 f2 f3, Rfs f1 f2 → Rfs f2 f3 → Rfs f1 f3.

Lemma within_refl s : within Rfs okev s s.
Proof. split; [done|]. exists []. by rewrite app_nil_r. Qed.

Lemma within_trans s1 s2 s3 :
  within Rfs okev s1 s2 → within Rfs okev s2 s3 → within Rfs okev s1 s3.
Proof.
  intros [Hf1 (t1 & Ht1 & Hok1)] [Hf2 (t2 & Ht2 & Hok2)]. split; [eauto|].
  exists (t1 ++ t2)%list. split.
  - by rewrite Ht2, Ht1, app_assoc.
  - by apply Forall_app.
Qed.

(** A state that differs in the heap or the rollback list only. *)
Lemma within_same s s' :
  st_fs s' = st_fs s → st_trace s' = st_trace s → within Rfs okev s s'.
Proof.
  intros Hf Ht. split; [by rewrite Hf|]. exists []. by rewrite app_nil_r.
Qed.

Lemma keeps_bind {A B} (m : M A) (k : A → M B) :
  keeps Rfs okev m → (∀ a, keeps Rfs okev (k a)) → keeps Rfs okev (m ≫= k).
Proof.
  intros Hm Hk s r s'. rewrite bind_unfold.
  destruct (m s) as [[e|a] s1] eqn:Hms.
  - intros [= <- <-]. by eapply Hm.
  - intros Hks. eapply within_trans; [by eapply Hm|by eapply Hk].
Qed.

Lemma keeps_ret {A} (a : A) : keeps Rfs okev (mret a).
Proof. intros s r s' [= <- <-]. apply within_refl. Qed.

Lemma keeps_raise {A} e : keeps Rfs okev (raise e : M A).
Proof. intros s r s' [= <- <-]. apply within_refl. Qed.

Lemma keeps_get_state : keeps Rfs okev get_state.
Proof. intros s r s' [= <- <-]. apply within_refl. Qed.

Lemma keeps_set_rollback ds : keeps Rfs okev (modify (set_rollback ds)).
Proof. intros s r s' [= <- <-]. by apply within_same. Qed.

Lemma keeps_prependDefer d : keeps Rfs okev (RollbackContext.prependDefer d).
Proof. intros s r s' [= <- <-]. by apply within_same. Qed.

Lemma keeps_getitem v k : keeps Rfs okev (Py.getitem v k).
Proof.
  intros s r s' H. unfold Py.getitem in H.
  repeat case_match; simplify_eq; apply within_refl.
Qed.

Lemma keeps_setitem v k x : keeps Rfs okev (Py.setitem v k x).
Proof.
  intros s r s' H. unfold Py.setitem in H.
  repeat case_match; simplify_eq; by apply within_same.
Qed.

Lemma keeps_log e : okev e → keeps Rfs okev (log e).
Proof.
  intros He s r s' [= <- <-]. split; [done|]. exists [e]. split; [done|].
  by apply Forall_singleton.
Qed.

Lemma keeps_set_fs f :
  (∀ f0, Rfs f0 (f f0)) →
  keeps Rfs okev (modify (λ s, set_fs (f (st_fs s)) s)).
Proof.
  intros Hf s r s' [= <- <-]. split; [apply Hf|].
  exists []. by rewrite app_nil_r.
Qed.

Lemma keeps_run_tool e t :
  okev e → (∀ f, Rfs f (t f).2) → keeps Rfs okev (run_tool e t).
Proof.
  intros He Ht s r s' H. unfold run_tool in H. simpl in H.
  pose proof (Ht (st_fs s)) as Hfs.
  destruct (t (st_fs s)) as [[x|] f]; simplify_eq; simpl in *.
  all: split; [done|]; exists [e]; split; [done|]; by apply Forall_singleton.
Qed.

Lemma keeps_open_wt E q :
  okev (EvOpen q) → (∀ f n, Rfs f (<[q := n]> f)) →
  keeps Rfs okev (Os.open_wt E q).
Proof.
  intros He Hq. unfold Os.open_wt.
  apply keeps_bind; [by apply keeps_log|intros _].
  intros s r s' H. munfold. simpl in H.
  repeat case_match; simplify_eq; try apply within_refl.
  all: split; [apply Hq|]; exists []; by rewrite app_nil_r.
Qed.

Lemma keeps_write q data :
  okev (EvWrite q data) → (∀ f n, Rfs f (<[q := n]> f)) →
  keeps Rfs okev (Os.write q data).
Proof.
  intros He Hq. unfold Os.write.
  apply keeps_bind; [by apply keeps_log|intros _].
  intros s r s' H. munfold. simpl in H.
  repeat case_match; simplify_eq; try apply within_refl.
  all: split; [apply Hq|]; exists []; by rewrite app_nil_r.
Qed.

Lemma keeps_stat_size E q : okev (EvStat q) → keeps Rfs okev (Os.stat_size E q).
Proof.
  intros He. unfold Os.stat_size.
  apply keeps_bind; [by apply keeps_log|intros _].
  intros s r s' H. munfold. simpl in H.
  repeat case_match; simplify_eq; apply within_refl.
Qed.

Lemma keeps_unlink q :
  okev (EvUnlink q) → (∀ f, Rfs f (delete q f)) →
  keeps Rfs okev (Os.unlink q).
Proof.
  intros He Hq. unfold Os.unlink.
  apply keeps_bind; [by apply keeps_log|intros _].
  intros s r s' H. munfold. simpl in H.
  repeat case_match; simplify_eq; try apply within_refl.
  all: split; [apply Hq|]; exists []; by rewrite app_nil_r.
Qed.

Lemma keeps_get_hash E p algo :
  okev (EvGetHash p algo) → keeps Rfs okev (get_hash E p algo).
Proof.
  intros He. unfold get_hash.
  apply keeps_bind; [by apply keeps_log|intros _].
  intros s r s' H. munfold. simpl in H.
  repeat case_match; simplify_eq; apply within_refl.
Qed.

Lemma keeps_rmtree p ig :
  okev (EvRmtree p) →
  (∀ f, Rfs f (filter (λ kv, Os.outside p kv.1 = true) f)) →
  keeps Rfs okev (Os.rmtree p ig).
Proof.
  intros He Hq. unfold Os.rmtree.
  apply keeps_bind; [by apply keeps_log|intros _].
  intros s r s' H. munfold. simpl in H.
  repeat case_match; simplify_eq; try apply within_refl.
  all: split; [apply Hq|]; exists []; by rewrite app_nil_r.
Qed.

(** The export of one instance. *)
Context (E : Env) (i : instance).
Hypothesis rules : fs_rules E (manager_of i) Rfs.
Hypothesis events : ∀ e, issued_by i e → okev e.

Lemma keeps_copy : keeps Rfs okev (DiskExportManager.copy E (manager_of i)).
Proof.
  apply keeps_run_tool; [by apply events|apply (fr_cp _ _ _ rules)].
Qed.

Lemma keeps_sparse : keeps Rfs okev (DiskExportManager.sparse E (manager_of i)).
Proof.
  unfold DiskExportManager.sparse.
  apply keeps_bind; [apply keeps_getitem|intros fmt].
  apply keeps_run_tool; [by apply events|apply (fr_sparse _ _ _ rules)].
Qed.

Lemma keeps_calc_sha :
  keeps Rfs okev (DiskExportManager.calc_sha E (manager_of i) "sha1").
Proof.
  unfold DiskExportManager.calc_sha.
  apply keeps_bind; [|intros _].
  { apply keeps_open_wt; [apply events; by left|apply (fr_hash _ _ _ rules)]. }
  apply keeps_bind; [by apply keeps_get_hash, events|intros sha].
  apply keeps_bind; [|intros _; apply keeps_setitem].
  apply keeps_write; [apply events; by left|apply (fr_hash _ _ _ rules)].
Qed.

Lemma keeps_update :
  keeps Rfs okev (DiskExportManager.update_lago_metadata E (manager_of i)).
Proof.
  unfold DiskExportManager.update_lago_metadata.
  apply keeps_bind; [by apply keeps_stat_size, events|intros size].
  apply keeps_bind; [apply keeps_setitem|intros _].
  apply keeps_bind; [apply keeps_setitem|intros _].
  apply keeps_setitem.
Qed.

Lemma keeps_write_lago_metadata :
  keeps Rfs okev (DiskExportManager.write_lago_metadata E (manager_of i)).
Proof.
  unfold DiskExportManager.write_lago_metadata.
  apply keeps_bind; [|intros _].
  { apply keeps_open_wt;
      [apply events; by right|apply (fr_metadata _ _ _ rules)]. }
  apply keeps_bind; [apply keeps_get_state|intros s0].
  destruct (Py.to_json _ _ _ _) as [e|j].
  - apply keeps_bind; [|intros _; apply keeps_raise].
    apply keeps_write;
      [apply events; by right|apply (fr_metadata _ _ _ rules)].
  - apply keeps_write;
      [apply events; by right|apply (fr_metadata _ _ _ rules)].
Qed.

Lemma keeps_compress :
  keeps Rfs okev (DiskExportManager.compress E (manager_of i)).
Proof.
  unfold DiskExportManager.compress.
  destruct (DiskExportManager.do_compress (manager_of i)) eqn:Hdc; simpl.
  - apply keeps_bind; [|intros _].
    + apply keeps_run_tool;
        [by apply events|apply (fr_compress _ _ _ rules)].
    + apply keeps_unlink; [by apply events|apply (fr_unlink _ _ _ rules)].
  - apply keeps_ret.
Qed.

Lemma keeps_rebase self :
  i = TemplateInstance self →
  keeps Rfs okev (TemplateExportManager.rebase E self).
Proof.
  intros Hi. unfold TemplateExportManager.rebase.
  assert (DiskExportManager.dst (TemplateExportManager.base self)
          = DiskExportManager.dst (manager_of i)) as Hdst by by rewrite Hi.
  destruct (Nat.eqb _ 1); [apply keeps_ret|].
  destruct (TemplateExportManager.standalone self) eqn:Hst.
  { apply keeps_run_tool.
    - apply events. rewrite Hi. simpl. by rewrite Hst.
    - rewrite Hdst. apply (fr_rebase _ _ _ rules). }
  destruct (Nat.ltb 2 _); [apply keeps_raise|].
  apply keeps_bind; [destruct (TemplateExportManager.src_qemu_info self);
                     [apply keeps_raise|apply keeps_ret]|intros entry].
  apply keeps_bind; [destruct (entry !! "backing-filename");
                     [apply keeps_ret|apply keeps_raise]|intros parent].
  apply keeps_bind; [destruct parent;
                     first [apply keeps_ret|apply keeps_raise]|intros bf].
  apply keeps_bind; [destruct (PyStr.after_colon bf);
                     [apply keeps_ret|apply keeps_raise]|intros tail].
  apply keeps_run_tool.
  - apply events. rewrite Hi. simpl. by rewrite Hst.
  - rewrite Hdst. apply (fr_rebase _ _ _ rules).
Qed.

Lemma keeps_template_update self :
  i = TemplateInstance self →
  keeps Rfs okev (TemplateExportManager.update_lago_metadata E self).
Proof.
  intros Hi. unfold TemplateExportManager.update_lago_metadata.
  apply keeps_bind; [|intros _].
  - pose proof keeps_update as H. by rewrite Hi in H.
  - destruct (TemplateExportManager.standalone self); apply keeps_setitem.
Qed.

Lemma keeps_export_body : keeps Rfs okev (export_body_of E i).
Proof.
  pose proof keeps_copy as Hcopy. pose proof keeps_sparse as Hsparse.
  pose proof keeps_calc_sha as Hsha. pose proof keeps_update as Hupd.
  pose proof keeps_write_lago_metadata as Hmeta.
  pose proof keeps_compress as Hcomp.
  pose proof keeps_rebase as Hrebase.
  pose proof keeps_template_update as Htupd.
  destruct i as [self|self]; simpl in *.
  - unfold FileExportManager.export_body.
    apply keeps_bind; [apply keeps_prependDefer|intros _].
    apply keeps_bind; [done|intros _].
    apply keeps_bind; [done|intros _].
    apply keeps_bind; [done|intros _].
    apply keeps_bind; [done|intros _].
    apply keeps_bind; [done|intros _].
    apply keeps_bind; [done|intros _].
    apply keeps_set_rollback.
  - unfold TemplateExportManager.export_body.
    apply keeps_bind; [apply keeps_prependDefer|intros _].
    apply keeps_bind; [done|intros _].
    apply keeps_bind; [done|intros _].
    apply keeps_bind; [by apply Hrebase|intros _].
    apply keeps_bind; [done|intros _].
    apply keeps_bind; [by apply Htupd|intros _].
    apply keeps_bind; [done|intros _].
    apply keeps_bind; [done|intros _].
    apply keeps_set_rollback.
Qed.

Lemma keeps_export : keeps Rfs okev (export E i).
Proof.
  intros s r s'. rewrite export_scope, scope_unfold.
  destruct (export_body_of E i (set_rollback [] s)) as [rb sb] eqn:Hbody.
  simpl. intros [= <- <-].
  pose proof (keeps_export_body _ _ _ Hbody) as Hin.
  rewrite (export_body_rollback _ _ _ _ _ Hbody).
  assert (within Rfs okev s sb) as Hsb.
  { eapply within_trans; [|exact Hin]. by apply within_same. }
  destruct rb as [e|a]; simpl.
  - destruct (Os.rmtree (DiskExportManager.dst (manager_of i)) true sb)
      as [r1 s1] eqn:Hrm. simpl.
    eapply within_trans; [exact Hsb|].
    apply (within_trans _ s1); [|by apply within_same].
    eapply keeps_rmtree; [| |exact Hrm].
    + by apply events.
    + apply (fr_rmtree _ _ _ rules).
  - eapply within_trans; [exact Hsb|]. by apply within_same.
Qed.

End keeps.

(** * The claims *)

Ltac json_field H :=
  eapply to_json_dict_lookup;
  [eassumption | eassumption | apply H | by intros [|?] ?].

(** ** Step order, checksum and metadata of a successful export *)

(** C4: the step order of every successful export is fixed.  The calls a
    successful export makes are, in this order and with nothing in
    between: copy, sparsify, the rebase (templates only, at most one
    call), the checksum of the destination with its [.hash] file, the
    [stat] of the metadata enrichment, the write of the [.metadata] file,
    and only then, when compression is on, compress and unlink. *)
Theorem C4_step_order E i s s' :
  export E i s = (inr tt, s') →
  ∃ fmt rb sha text,
    let m := manager_of i in
    let dst := DiskExportManager.dst m in
    match i with
    | FileInstance _ => rb = []
    | TemplateInstance self => rebase_calls self rb
    end ∧
    st_trace s' =
    (st_trace s ++
     [EvCp (DiskExportManager.src m) dst; EvSparse dst fmt] ++
     rb ++
     [EvOpen (dst ++ ".hash"); EvGetHash dst "sha1";
      EvWrite (dst ++ ".hash") sha; EvStat dst;
      EvOpen (dst ++ ".metadata"); EvWrite (dst ++ ".metadata") text] ++
     (if DiskExportManager.do_compress m
      then [EvCompress dst 16777216; EvUnlink dst] else []))%list.
Proof.
  intros (s6 & data & j & rb & fmt & l & d &
    [Hrb Hart Hhash Hmeta Href Hheap Hjson Hsha1 Hsize Hname Hversion
       Hbase Htrace Hcomp])%export_inr.
  destruct Hcomp as (s7 & Hc & ->).
  exists fmt, rb, (digest E "sha1" data), (json_dumps E j).
  split; [done|]. simpl.
  apply compress_inr in Hc.
  destruct (DiskExportManager.do_compress (manager_of i)).
  - destruct Hc as (f & data' & _ & _ & ->). simpl.
    rewrite Htrace. by rewrite <- !app_assoc.
  - subst s7. by rewrite Htrace.
Qed.

(** C5: after every successful export the digest stored in [.metadata]
    under ['sha1'] is the digest stored in [.hash], and both are the
    digest of the bytes the artifact holds before the compress step.
    [s6] is the state in which the compress step starts; nothing but that
    step runs between [s6] and the return of the export. *)
Theorem C5_checksum_round_trip E i s s' :
  export E i s = (inr tt, s') →
  ∃ s6 s7 data j,
    let m := manager_of i in
    let dst := DiskExportManager.dst m in
    DiskExportManager.compress E m s6 = (inr tt, s7) ∧
    s' = set_rollback (st_rollback s) s7 ∧
    (DiskExportManager.do_compress m = false → s7 = s6) ∧
    st_fs s6 !! dst = Some (File data) ∧
    st_fs s6 !! (dst ++ ".hash") = Some (File (digest E "sha1" data)) ∧
    st_fs s6 !! (dst ++ ".metadata") = Some (File (json_dumps E j)) ∧
    json_get "sha1" j = Some (JStr (digest E "sha1" data)).
Proof.
  intros (s6 & data & j & rb & fmt & l & d &
    [Hrb Hart Hhash Hmeta Href Hheap Hjson Hsha1 Hsize Hname Hversion
       Hbase Htrace Hcomp])%export_inr.
  destruct Hcomp as (s7 & Hc & ->).
  exists s6, s7, data, j. simpl. split_and!; try done.
  - intros Hno. apply compress_inr in Hc. by rewrite Hno in Hc.
  - json_field Hsha1.
Qed.

(** C10: the [.metadata] document of every successful export maps
    ['size'], ['name'], ['version'] and ['sha1'] (and ['base'] for a
    template) to the values the export computed, whatever the metadata
    copied from the source held under those keys. *)
Theorem C10_enrichment_overwrites E i s s' :
  export E i s = (inr tt, s') →
  ∃ s6 s7 data j,
    let m := manager_of i in
    let dst := DiskExportManager.dst m in
    DiskExportManager.compress E m s6 = (inr tt, s7) ∧
    s' = set_rollback (st_rollback s) s7 ∧
    st_fs s6 !! dst = Some (File data) ∧
    st_fs s6 !! (dst ++ ".metadata") = Some (File (json_dumps E j)) ∧
    json_get "size" j = Some (JInt (Z.of_nat (String.length data))) ∧
    json_get "name" j = Some (JStr (DiskExportManager.name m)) ∧
    json_get "version" j = Some (JStr (strftime E "%Y%m%d.0")) ∧
    json_get "sha1" j = Some (JStr (digest E "sha1" data)) ∧
    match i with
    | FileInstance _ => True
    | TemplateInstance self =>
        json_get "base" j =
        Some (JStr (if TemplateExportManager.standalone self then "None"
                    else PyStr.basename (DiskExportManager.src m)))
    end.
Proof.
  intros (s6 & data & j & rb & fmt & l & d &
    [Hrb Hart Hhash Hmeta Href Hheap Hjson Hsha1 Hsize Hname Hversion
       Hbase Htrace Hcomp])%export_inr.
  destruct Hcomp as (s7 & Hc & ->).
  exists s6, s7, data, j. simpl. split_and!; try done.
  - json_field Hsize.
  - json_field Hname.
  - json_field Hversion.
  - json_field Hsha1.
  - destruct i as [self|self]; [done|]. json_field Hbase.
Qed.

(** C7 (as amended): with the compress flag off the compress step changes
    nothing: it returns the state it was given, so no file is removed and
    no call is made.  With the flag on, after a successful export nothing
    is left at the destination path: the export ends with the compression
    tool's run on the destination followed by the unlink of that path. *)
Theorem C7_compress E i :
  let m := manager_of i in
  let dst := DiskExportManager.dst m in
  (DiskExportManager.do_compress m = false →
   ∀ s, DiskExportManager.compress E m s = (inr tt, s)) ∧
  (DiskExportManager.do_compress m = true →
   ∀ s s', export E i s = (inr tt, s') →
     st_fs s' !! dst = None ∧
     ∃ t, st_trace s' = (t ++ [EvCompress dst 16777216; EvUnlink dst])%list).
Proof.
  simpl. split.
  - intros Hno s. unfold DiskExportManager.compress. by rewrite Hno.
  - intros Hyes s s' (s6 & data & j & rb & fmt & l & d &
    [Hrb Hart Hhash Hmeta Href Hheap Hjson Hsha1 Hsize Hname Hversion
       Hbase Htrace Hcomp])%export_inr.
    destruct Hcomp as (s7 & Hc & ->).
    apply compress_inr in Hc. rewrite Hyes in Hc.
    destruct Hc as (f & data' & _ & _ & ->). simpl.
    split; [apply lookup_delete_eq|]. eauto.
Qed.

Import Scenario.

Lemma C4_witness :
  ∃ s',
    export (env [] true) (FileInstance (file_manager true)) constructed
    = (inr tt, s') ∧
    ∃ fmt rb sha text,
      rb = [] ∧
      st_trace s' =
      ([EvCp "/prefix/vm0.qcow2" "/out/vm0.qcow2";
        EvSparse "/out/vm0.qcow2" fmt] ++
       rb ++
       [EvOpen "/out/vm0.qcow2.hash"; EvGetHash "/out/vm0.qcow2" "sha1";
        EvWrite "/out/vm0.qcow2.hash" sha; EvStat "/out/vm0.qcow2";
        EvOpen "/out/vm0.qcow2.metadata";
        EvWrite "/out/vm0.qcow2.metadata" text] ++
       [EvCompress "/out/vm0.qcow2" 16777216; EvUnlink "/out/vm0.qcow2"])%list.
Proof.
  eexists. split.
  - vm_compute. reflexivity.
  - apply (C4_step_order (env [] true) (FileInstance (file_manager true))
             constructed).
    vm_compute. reflexivity.
Defined.

Lemma C5_witness :
  ∃ s',
    export (env [] true) (FileInstance (file_manager true)) constructed
    = (inr tt, s') ∧
    ∃ s6 s7 data j,
      DiskExportManager.compress (env [] true) (file_manager true) s6
      = (inr tt, s7) ∧
      s' = set_rollback [] s7 ∧
      (true = false → s7 = s6) ∧
      st_fs s6 !! "/out/vm0.qcow2" = Some (File data) ∧
      st_fs s6 !! "/out/vm0.qcow2.hash"
      = Some (File (digest (env [] true) "sha1" data)) ∧
      st_fs s6 !! "/out/vm0.qcow2.metadata"
      = Some (File (json_dumps (env [] true) j)) ∧
      json_get "sha1" j = Some (JStr (digest (env [] true) "sha1" data)).
Proof.
  eexists. split.
  - vm_compute. reflexivity.
  - apply (C5_checksum_round_trip (env [] true)
             (FileInstance (file_manager true)) constructed).
    vm_compute. reflexivity.
Defined.

Lemma C10_witness :
  let E := env [layer "/store/repo:el7:v1"; base_image] true in
  let self := template_manager [layer "/store/repo:el7:v1"; base_image] false in
  ∃ s',
    export E (TemplateInstance self) constructed = (inr tt, s') ∧
    ∃ s6 s7 data j,
      DiskExportManager.compress E (TemplateExportManager.base self) s6
      = (inr tt, s7) ∧
      s' = set_rollback [] s7 ∧
      st_fs s6 !! "/out/vm0.qcow2" = Some (File data) ∧
      st_fs s6 !! "/out/vm0.qcow2.metadata" = Some (File (json_dumps E j)) ∧
      json_get "size" j = Some (JInt (Z.of_nat (String.length data))) ∧
      json_get "name" j = Some (JStr "vm0.qcow2") ∧
      json_get "version" j = Some (JStr (strftime E "%Y%m%d.0")) ∧
      json_get "sha1" j = Some (JStr (digest E "sha1" data)) ∧
      json_get "base" j = Some (JStr "vm0.qcow2").
Proof.
  intros E self. eexists. split.
  - vm_compute. reflexivity.
  - apply (C10_enrichment_overwrites E (TemplateInstance self) constructed).
    vm_compute. reflexivity.
Defined.

Lemma C7_witness :
  (DiskExportManager.do_compress (file_manager false) = false ∧
   DiskExportManager.compress (env [] true) (file_manager false) constructed
   = (inr tt, constructed)) ∧
  (DiskExportManager.do_compress (file_manager true) = true ∧
   ∃ s',
     export (env [] true) (FileInstance (file_manager true)) constructed
     = (inr tt, s') ∧
     st_fs s' !! "/out/vm0.qcow2" = None ∧
     ∃ t, st_trace s' =
          (t ++ [EvCompress "/out/vm0.qcow2" 16777216;
                 EvUnlink "/out/vm0.qcow2"])%list).
Proof.
  split.
  - split; [reflexivity|].
    exact (proj1 (C7_compress (env [] true) (FileInstance (file_manager false)))
             eq_refl constructed).
  - split; [reflexivity|]. eexists. split.
    + vm_compute. reflexivity.
    + apply (proj2 (C7_compress (env [] true)
                      (FileInstance (file_manager true))) eq_refl constructed).
      vm_compute. reflexivity.
Defined.

(** C7, the claim as stated fails: after a successful export with
    compression on, no file at all is left at the destination path; what
    the compression tool produced lies elsewhere. *)
Lemma C7_counterexample :
  let r := export (env [] true) (FileInstance (file_manager true)) constructed in
  r.1 = inr tt ∧
  st_fs r.2 !! "/out/vm0.qcow2" = None ∧
  st_fs r.2 !! "/out/vm0.qcow2.xz" = Some (File "xz:DATA").
Proof. vm_compute. done. Qed.

(** ** The rebase of a template *)

Lemma getitem_heap v k s x s2 :
  Py.getitem v k s = (inr x, s) →
  st_heap s2 = st_heap s →
  Py.getitem v k s2 = (inr x, s2).
Proof.
  unfold Py.getitem. intros H Hh. rewrite Hh.
  repeat case_match; simplify_eq; done.
Qed.

(** C3 (as amended): in a layered (non-standalone) export whose chain has
    two elements, when the ['backing-filename'] of element 0 is a string
    that contains a colon, the rebase step is exactly one call of
    [qemu_rebase] on the destination, in unsafe mode ([safe=False]),
    with the backing file ['./'] followed by the basename of the text
    after the first colon of that ['backing-filename']. *)
Theorem C3_rebase_target E self s entry other bf tail :
  TemplateExportManager.standalone self = false →
  TemplateExportManager.src_qemu_info self = [entry; other] →
  entry !! "backing-filename" = Some (VStr bf) →
  PyStr.after_colon bf = Some tail →
  let dst := DiskExportManager.dst (TemplateExportManager.base self) in
  let parent := "./" ++ PyStr.basename tail in
  TemplateExportManager.rebase E self s =
    run_tool (EvRebase dst parent (Some false))
             (tool_qemu_rebase E dst parent (Some false)) s ∧
  st_trace (TemplateExportManager.rebase E self s).2 =
    (st_trace s ++ [EvRebase dst parent (Some false)])%list.
Proof.
  intros Hst Hinfo Hbf Htail dst parent.
  assert (TemplateExportManager.rebase E self s =
          run_tool (EvRebase dst parent (Some false))
                   (tool_qemu_rebase E dst parent (Some false)) s) as Heq.
  { unfold TemplateExportManager.rebase. rewrite Hst, Hinfo. simpl.
    munfold. simpl. by rewrite Hbf, Htail. }
  split; [done|]. rewrite Heq.
  destruct (run_tool _ _ s) as [r s'] eqn:Hrun. simpl.
  by apply run_tool_trace in Hrun as (-> & _).
Qed.

Lemma C3_witness :
  TemplateExportManager.standalone (template_manager store_chain false) = false ∧
  TemplateExportManager.src_qemu_info (template_manager store_chain false)
  = [layer "/var/lib/lago/store/phx_repo:el7-base:v1"; base_image] ∧
  layer "/var/lib/lago/store/phx_repo:el7-base:v1" !! "backing-filename"
  = Some (VStr "/var/lib/lago/store/phx_repo:el7-base:v1") ∧
  PyStr.after_colon "/var/lib/lago/store/phx_repo:el7-base:v1"
  = Some "el7-base:v1" ∧
  TemplateExportManager.rebase (env store_chain true)
    (template_manager store_chain false) copied =
    run_tool (EvRebase "/out/vm0.qcow2" ("./" ++ PyStr.basename "el7-base:v1")
                       (Some false))
             (tool_qemu_rebase (env store_chain true) "/out/vm0.qcow2"
                ("./" ++ PyStr.basename "el7-base:v1") (Some false)) copied ∧
  st_trace (TemplateExportManager.rebase (env store_chain true)
              (template_manager store_chain false) copied).2 =
    (st_trace copied ++
     [EvRebase "/out/vm0.qcow2" ("./" ++ PyStr.basename "el7-base:v1")
               (Some false)])%list.
Proof.
  split_and!; [reflexivity..| |];
    apply (C3_rebase_target (env store_chain true)
             (template_manager store_chain false) copied
             (layer "/var/lib/lago/store/phx_repo:el7-base:v1") base_image
             "/var/lib/lago/store/phx_repo:el7-base:v1" "el7-base:v1");
    reflexivity.
Defined.

(** C3, the claim as stated fails.  For a backing file in Lago's template
    store, named [repo:name:version], the code rebases onto
    ['./name:version'], not onto ['./'] plus the basename of the backing
    file's path; and for a backing file whose path has no colon the
    rebase step raises [IndexError] and calls nothing. *)
Lemma C3_counterexample :
  (TemplateExportManager.rebase (env store_chain true)
     (template_manager store_chain false) copied).1 = inr tt ∧
  st_trace (TemplateExportManager.rebase (env store_chain true)
              (template_manager store_chain false) copied).2
  = [EvRebase "/out/vm0.qcow2" "./el7-base:v1" (Some false)] ∧
  "./" ++ PyStr.basename "/var/lib/lago/store/phx_repo:el7-base:v1"
  = "./phx_repo:el7-base:v1" ∧
  TemplateExportManager.rebase (env plain_chain true)
    (template_manager plain_chain false) copied
  = (inl IndexError, copied).
Proof. vm_compute. done. Qed.

(** ** Chains deeper than one layer *)

(** C2 (as amended): a layered (non-standalone) export of a template whose
    backing chain is longer than 2 never succeeds, and when its copy and
    sparsify steps go through it fails with the layered-export
    [LagoUserException]: the error is raised by the rebase step, after
    the copy and the sparsify were made and before [qemu_rebase], the
    checksum, the metadata or the compression run; the rollback's
    [rmtree] of the destination is the only call that follows. *)
Theorem C2_deep_chain_rejected E self s :
  TemplateExportManager.standalone self = false →
  2 < length (TemplateExportManager.src_qemu_info self) →
  let b := TemplateExportManager.base self in
  let src := DiskExportManager.src b in
  let dst := DiskExportManager.dst b in
  (TemplateExportManager.export E self s).1 ≠ inr tt ∧
  ∀ f1 fmt f2,
    tool_cp E src dst (st_fs s) = (None, f1) →
    Py.getitem (DiskExportManager.disk b) "format" s = (inr fmt, s) →
    tool_sparse E dst fmt f1 = (None, f2) →
    ∃ s',
      TemplateExportManager.export E self s
      = (inl (LagoUserException TemplateExportManager.layered_msg), s') ∧
      st_heap s' = st_heap s ∧
      st_trace s' =
        (st_trace s ++ [EvCp src dst; EvSparse dst fmt; EvRmtree dst])%list.
Proof.
  intros Hst Hlen b src dst. split.
  - destruct (TemplateExportManager.export E self s) as [r s'] eqn:Hex.
    simpl. intros ->.
    apply template_export_inr in Hex
      as (s6 & data & j & rb & fmt & l & d & [Hrb _ _ _ _ _ _ _ _ _ _ _ _ _]).
    destruct Hrb as [H1|_ Hs|entry rest bf tail _ Hinfo Hrest _ _].
    + lia.
    + congruence.
    + rewrite Hinfo in Hlen. simpl in Hlen. lia.
  - intros f1 fmt f2 Hcp Hfmt Hsp.
    unfold TemplateExportManager.export. rewrite scope_unfold.
    unfold TemplateExportManager.export_body.
    rewrite bind_unfold. simpl.
    rewrite bind_unfold. unfold DiskExportManager.copy, run_tool. simpl.
    fold b src dst. rewrite Hcp.
    rewrite bind_unfold. unfold DiskExportManager.sparse.
    rewrite bind_unfold.
    erewrite getitem_heap; [|exact Hfmt|done].
    unfold run_tool. simpl. fold dst. rewrite Hsp.
    rewrite bind_unfold. rewrite rebase_too_deep by done. simpl.
    unfold Os.rmtree. munfold. simpl.
    destruct (f2 !! dst) as [[?|]|]; simpl;
      (eexists; split; [done|]; split; [done|]; simpl;
       by rewrite <- !app_assoc).
Qed.

Lemma C2_witness :
  let E := env deep_chain true in
  let self := template_manager deep_chain false in
  TemplateExportManager.standalone self = false ∧
  2 < length (TemplateExportManager.src_qemu_info self) ∧
  (TemplateExportManager.export E self constructed).1 ≠ inr tt ∧
  tool_cp E "/prefix/vm0.qcow2" "/out/vm0.qcow2" (st_fs constructed)
  = (None, st_fs copied) ∧
  Py.getitem template_disk "format" constructed
  = (inr (VStr "qcow2"), constructed) ∧
  tool_sparse E "/out/vm0.qcow2" (VStr "qcow2") (st_fs copied)
  = (None, st_fs copied) ∧
  ∃ s',
    TemplateExportManager.export E self constructed
    = (inl (LagoUserException TemplateExportManager.layered_msg), s') ∧
    st_heap s' = st_heap constructed ∧
    st_trace s' =
      (st_trace constructed ++
       [EvCp "/prefix/vm0.qcow2" "/out/vm0.qcow2";
        EvSparse "/out/vm0.qcow2" (VStr "qcow2");
        EvRmtree "/out/vm0.qcow2"])%list.
Proof.
  intros E self.
  assert (2 < length (TemplateExportManager.src_qemu_info self)) as Hlen
    by (simpl; lia).
  pose proof (C2_deep_chain_rejected E self constructed eq_refl Hlen)
    as [Hfail Hhow].
  split_and!; [reflexivity|exact Hlen|exact Hfail|reflexivity..|].
  apply (Hhow (st_fs copied) (VStr "qcow2") (st_fs copied)); reflexivity.
Defined.

(** C2, the claim as stated fails: with a chain of three the export does
    fail with the layered-export error, but only after the copy (and the
    sparsify) ran, and the copied file is still at the destination when
    the error reaches the caller. *)
Lemma C2_counterexample :
  let r := TemplateExportManager.export (env deep_chain true)
             (template_manager deep_chain false) constructed in
  length deep_chain = 3 ∧
  r.1 = inl (LagoUserException TemplateExportManager.layered_msg) ∧
  st_trace r.2 = [EvCp "/prefix/vm0.qcow2" "/out/vm0.qcow2";
                  EvSparse "/out/vm0.qcow2" (VStr "qcow2");
                  EvRmtree "/out/vm0.qcow2"] ∧
  st_fs r.2 !! "/out/vm0.qcow2" = Some (File "DATA").
Proof. vm_compute. done. Qed.

(** ** Construction *)

Lemma HANDLERS_lookup (t : string) :
  HANDLERS !! t =
  if decide (t = "file") then Some ClsFile
  else if decide (t = "empty") then Some ClsFile
  else if decide (t = "template") then Some ClsTemplate
  else None.
Proof.
  unfold HANDLERS. rewrite !lookup_insert, lookup_empty.
  repeat case_decide; simplify_eq; done.
Qed.

(** The base constructor reads the heap and allocates the copy; it makes
    no call and leaves the files alone. *)
Lemma init_quiet E dst disk_type disk dc s r s' :
  DiskExportManager.init E dst disk_type disk dc s = (r, s') →
  st_trace s' = st_trace s ∧ st_fs s' = st_fs s ∧
  st_rollback s' = st_rollback s.
Proof.
  unfold DiskExportManager.init, Py.getitem, Py.as_str, Py.deepcopy.
  munfold. intros H.
  repeat (case_match; simplify_eq/=); done.
Qed.

(** The dispatch, once the type of the disk is known to be a string. *)
Lemma get_instance_by_type_unfold E dst disk dc kwargs s t :
  Py.getitem disk "type" s = (inr (VStr t), s) →
  get_instance_by_type E dst disk dc kwargs s =
  match HANDLERS !! t with
  | None => (inl (LagoUserException (unsupported_msg (VStr t))), s)
  | Some ClsFile =>
      (self ← FileExportManager.init E dst (VStr t) disk dc kwargs;
       mret (FileInstance self)) s
  | Some ClsTemplate =>
      (self ← TemplateExportManager.init E dst (VStr t) disk dc kwargs;
       mret (TemplateInstance self)) s
  end.
Proof.
  intros Hty. unfold get_instance_by_type.
  rewrite bind_unfold, Hty. simpl. rewrite bind_unfold. simpl.
  by destruct (HANDLERS !! t) as [[]|].
Qed.

(** C8: variant resolution.  The table maps exactly ['file'] and ['empty']
    to the plain manager and ['template'] to the template manager; a disk
    of one of these types is handed to the constructor of that class, and
    for any other type the call fails with the [LagoUserException] that
    names the type, in the state it was called in: nothing was touched. *)
Theorem C8_variant_resolution E dst disk dc kwargs s t :
  Py.getitem disk "type" s = (inr (VStr t), s) →
  (HANDLERS !! t = Some ClsFile ↔ t = "file" ∨ t = "empty") ∧
  (HANDLERS !! t = Some ClsTemplate ↔ t = "template") ∧
  (t = "file" ∨ t = "empty" →
   get_instance_by_type E dst disk dc kwargs s =
   (self ← FileExportManager.init E dst (VStr t) disk dc kwargs;
    mret (FileInstance self)) s) ∧
  (t = "template" →
   get_instance_by_type E dst disk dc kwargs s =
   (self ← TemplateExportManager.init E dst (VStr t) disk dc kwargs;
    mret (TemplateInstance self)) s) ∧
  (t ≠ "file" → t ≠ "empty" → t ≠ "template" →
   get_instance_by_type E dst disk dc kwargs s =
   (inl (LagoUserException ("Export is not supported for disk type " ++ t)),
    s)).
Proof.
  intros Hty.
  pose proof (get_instance_by_type_unfold E dst disk dc kwargs s t Hty) as Hrun.
  pose proof (HANDLERS_lookup t) as Hl.
  rewrite Hl in Hrun. rewrite Hl.
  split_and!.
  - repeat case_decide; split; intros; simplify_eq; tauto.
  - repeat case_decide; split; intros; simplify_eq; tauto.
  - intros [-> | ->]; exact Hrun.
  - intros ->. exact Hrun.
  - intros Hf He Ht. by rewrite !decide_False in Hrun.
Qed.

Lemma C8_witness :
  Py.getitem floppy_disk "type" start = (inr (VStr "floppy"), start) ∧
  (HANDLERS !! "floppy" = Some ClsFile ↔ "floppy" = "file" ∨ "floppy" = "empty") ∧
  (HANDLERS !! "floppy" = Some ClsTemplate ↔ "floppy" = "template") ∧
  ("floppy" = "file" ∨ "floppy" = "empty" →
   get_instance_by_type (env [] true) "/out" floppy_disk false ∅ start =
   (self ← FileExportManager.init (env [] true) "/out" (VStr "floppy")
             floppy_disk false ∅;
    mret (FileInstance self)) start) ∧
  ("floppy" = "template" →
   get_instance_by_type (env [] true) "/out" floppy_disk false ∅ start =
   (self ← TemplateExportManager.init (env [] true) "/out" (VStr "floppy")
             floppy_disk false ∅;
    mret (TemplateInstance self)) start) ∧
  ("floppy" ≠ "file" → "floppy" ≠ "empty" → "floppy" ≠ "template" →
   get_instance_by_type (env [] true) "/out" floppy_disk false ∅ start =
   (inl (LagoUserException "Export is not supported for disk type floppy"),
    start)).
Proof.
  split; [reflexivity|].
  apply (C8_variant_resolution (env [] true) "/out" floppy_disk false ∅ start
           "floppy").
  reflexivity.
Defined.

(** C9 (as amended): without the ['standalone'] keyword the construction
    of a template manager always fails, makes no call (the backing chain
    of the source is not inspected) and leaves the files alone; when the
    keywords bind and the base-class constructor goes through, the
    failure is [KeyError('standalone')], not the error for an unsupported
    type.  For any other disk type the keyword is not needed: giving it
    or leaving it out makes no difference. *)
Theorem C9_standalone_required E dst disk dc kwargs s t :
  Py.getitem disk "type" s = (inr (VStr t), s) →
  (t = "template" → kwargs !! "standalone" = None →
   ∃ e s',
     get_instance_by_type E dst disk dc kwargs s = (inl e, s') ∧
     st_trace s' = st_trace s ∧ st_fs s' = st_fs s ∧
     ∀ self s1,
       keywords_bind kwargs = true →
       DiskExportManager.init E dst (VStr t) disk dc s = (inr self, s1) →
       e = KeyError "standalone" ∧ s' = s1) ∧
  (t ≠ "template" →
   get_instance_by_type E dst disk dc kwargs s =
   get_instance_by_type E dst disk dc (delete "standalone" kwargs) s).
Proof.
  intros Hty. split.
  - intros -> Hkw.
    rewrite (get_instance_by_type_unfold _ _ _ _ _ _ _ Hty).
    change (HANDLERS !! "template") with (Some ClsTemplate). cbv iota.
    rewrite bind_unfold. unfold TemplateExportManager.init.
    rewrite bind_unfold, bind_keywords_run.
    destruct (keywords_bind kwargs).
    2:{ exists TypeError, s. by split_and!. }
    rewrite bind_unfold.
    destruct (DiskExportManager.init E dst (VStr "template") disk dc s)
      as [[e|self] s1] eqn:Hinit.
    + apply init_quiet in Hinit as (? & ? & _).
      exists e, s1. split_and!; done.
    + apply init_quiet in Hinit as (? & ? & _).
      rewrite bind_unfold, Hkw. simpl.
      exists (KeyError "standalone"), s1. split_and!; try done.
      by intros ? ? _ [= <- <-].
  - intros Hne. pose proof (HANDLERS_lookup t) as Hl.
    rewrite !(get_instance_by_type_unfold _ _ _ _ _ _ _ Hty), Hl.
    repeat case_decide; try done.
    all: unfold FileExportManager.init;
      rewrite !bind_unfold, !bind_keywords_run;
      rewrite keywords_bind_delete; [done|].
    all: unfold positional; rewrite !not_elem_of_cons;
      split_and!; [done..|apply not_elem_of_nil].
Qed.

Lemma C9_witness :
  Py.getitem template_disk "type" start = (inr (VStr "template"), start) ∧
  ("template" = "template" → (∅ : gmap string bool) !! "standalone" = None →
   ∃ e s',
     get_instance_by_type (env store_chain true) "/out" template_disk false ∅
       start = (inl e, s') ∧
     st_trace s' = st_trace start ∧ st_fs s' = st_fs start ∧
     ∀ self s1,
       keywords_bind ∅ = true →
       DiskExportManager.init (env store_chain true) "/out" (VStr "template")
         template_disk false start = (inr self, s1) →
       e = KeyError "standalone" ∧ s' = s1) ∧
  ("template" ≠ "template" →
   get_instance_by_type (env store_chain true) "/out" template_disk false ∅
     start =
   get_instance_by_type (env store_chain true) "/out" template_disk false
     (delete "standalone" ∅) start).
Proof.
  split; [reflexivity|].
  apply (C9_standalone_required (env store_chain true) "/out" template_disk
           false ∅ start "template").
  reflexivity.
Defined.

(** C9, the claim as stated fails: a template without ['standalone'] does
    not always fail with a [KeyError].  With a ['path'] that is no string
    the base-class constructor raises [TypeError] first, and so does the
    call itself when a keyword is named after a positional parameter. *)
Lemma C9_counterexample :
  let bad_path :=
    set_heap (<[3%positive :=
                  ODict (<["path" := VInt 7]> (descriptor "template"))]> heap)
      start in
  Py.getitem template_disk "type" bad_path
  = (inr (VStr "template"), bad_path) ∧
  get_instance_by_type (env store_chain true) "/out" template_disk false ∅
    bad_path = (inl TypeError, bad_path) ∧
  get_instance_by_type (env store_chain true) "/out" template_disk false
    (<["disk_type" := true]> ∅) start = (inl TypeError, start) ∧
  ∀ k, TypeError ≠ KeyError k.
Proof. split_and!; [by vm_compute..|done]. Qed.

(** The failure of the scenario, evaluated. *)
Example template_without_standalone :
  (get_instance_by_type (env store_chain true) "/out" template_disk false ∅
     start).1 = inl (KeyError "standalone") ∧
  (get_instance_by_type (env store_chain true) "/out" template_disk false
     (standalone false) start).1
  = inr (TemplateInstance (template_manager store_chain false)) ∧
  (get_instance_by_type (env [] true) "/out" file_disk false ∅ start)
  = (inr (FileInstance (file_manager false)), constructed).
Proof. vm_compute. done. Qed.

(** ** The caller's objects *)



(** The caller's metadata in the scenario, before and after an export that
    succeeds and one that fails. *)
Example caller_metadata_untouched :
  st_heap (run (env [] true) file_disk true ∅ start).2 !! 1%positive
  = Some (ODict metadata) ∧
  st_heap (run (env [] false) file_disk true ∅ start).2 !! 1%positive
  = Some (ODict metadata) ∧
  st_heap (run (env [] true) file_disk true ∅ start).2 !! 5%positive
  ≠ Some (ODict metadata).
Proof. vm_compute. split_and!; try done. Qed.

(** ** The rollback *)

(** C1: what the rollback does.  Whatever the class of the manager, the
    outcome of the body of [export] is the outcome of [export]: an error
    reaches the caller unchanged, after the cleanup
    [shutil.rmtree(self.dst, ignore_errors=True)] has run once as the last
    call; on success no cleanup runs.  The cleanup removes a directory
    tree: when the destination is a regular file, which is what [cp]
    leaves there, or when there is nothing at the destination, the file
    system after the failed export is the one the failing step left, with
    the destination still in place. *)
Theorem C1_rollback_on_failure E i s r sb :
  export_body_of E i (set_rollback [] s) = (r, sb) →
  let dst := DiskExportManager.dst (manager_of i) in
  let out := export E i s in
  out.1 = r ∧
  st_heap out.2 = st_heap sb ∧
  st_rollback out.2 = st_rollback s ∧
  match r with
  | inl _ =>
      st_trace out.2 = (st_trace sb ++ [EvRmtree dst])%list ∧
      (st_fs sb !! dst ≠ Some Dir → st_fs out.2 = st_fs sb) ∧
      (st_fs sb !! dst = Some Dir → st_fs out.2 !! dst = None)
  | inr _ => st_trace out.2 = st_trace sb ∧ st_fs out.2 = st_fs sb
  end.
Proof.
  intros Hbody. simpl. rewrite export_scope, scope_unfold, Hbody. simpl.
  rewrite (export_body_rollback _ _ _ _ _ Hbody).
  destruct r as [e|a]; simpl; [|done].
  destruct (rmtree_spec (DiskExportManager.dst (manager_of i)) true sb)
    as (r1 & f & -> & _ & Hfile & Hdir).
  simpl. by split_and!.
Qed.

(** The export of the scenario in which [virt-sparsify] fails: the error
    of the tool reaches the caller, the cleanup runs, and the copy made by
    [cp] is still at the destination. *)
Lemma C1_witness :
  let out := export (env [] false) (FileInstance (file_manager false))
               constructed in
  (export_body_of (env [] false) (FileInstance (file_manager false))
     (set_rollback [] constructed)).1
  = inl (ToolError "virt-sparsify" "/out/vm0.qcow2") ∧
  out.1 = inl (ToolError "virt-sparsify" "/out/vm0.qcow2") ∧
  st_trace out.2 = [EvCp "/prefix/vm0.qcow2" "/out/vm0.qcow2";
                    EvSparse "/out/vm0.qcow2" (VStr "qcow2");
                    EvRmtree "/out/vm0.qcow2"] ∧
  st_fs out.2 !! "/out/vm0.qcow2" = Some (File "DATA").
Proof.
  pose proof (C1_rollback_on_failure (env [] false)
                (FileInstance (file_manager false)) constructed
                (inl (ToolError "virt-sparsify" "/out/vm0.qcow2"))
                (mkState (<["/out/vm0.qcow2" := File "DATA"]> files)
                   (<[5%positive := ODict metadata]> heap)
                   [EvCp "/prefix/vm0.qcow2" "/out/vm0.qcow2";
                    EvSparse "/out/vm0.qcow2" (VStr "qcow2")]
                   [DeferRmtree "/out/vm0.qcow2" true])
                eq_refl) as (Hr & _ & _ & Ht & Hfs & _).
  cbv zeta. split_and!; [reflexivity|exact Hr|exact Ht|].
  rewrite Hfs; [reflexivity|vm_compute; discriminate].
Defined.

(** * Further properties of the module *)

(** ** Paths: the name and the place of the exported file *)

Lemma string_app_cons c (a b : string) : String c a ++ b = String c (a ++ b).
Proof. reflexivity. Qed.

Lemma string_app_assoc (a b c : string) : (a ++ b) ++ c = a ++ b ++ c.
Proof.
  induction a as [|x a IH]; [done|].
  rewrite !string_app_cons. by rewrite IH.
Qed.

Lemma has_slash_basename s : PyStr.has_slash (PyStr.basename s) = false.
Proof.
  induction s as [|c r IH]; [done|]. simpl.
  destruct (Ascii.eqb c "/") eqn:Hc; [done|].
  destruct (PyStr.has_slash r) eqn:Hr; [done|].
  simpl. by rewrite Hc.
Qed.

Lemma basename_no_slash s : PyStr.has_slash s = false → PyStr.basename s = s.
Proof.
  destruct s as [|c r]; [done|]. simpl.
  destruct (Ascii.eqb c "/"); [done|]. by intros ->.
Qed.

Lemma has_slash_app_slash a n : PyStr.has_slash (a ++ "/" ++ n) = true.
Proof.
  induction a as [|c a IH]; [done|].
  rewrite string_app_cons. simpl. by destruct (Ascii.eqb c "/").
Qed.

Lemma basename_app_slash a n :
  PyStr.has_slash n = false → PyStr.basename (a ++ "/" ++ n) = n.
Proof.
  intros Hn. induction a as [|c a IH].
  - change ("" ++ "/" ++ n) with (String "/" n). simpl.
    by apply basename_no_slash.
  - rewrite string_app_cons. simpl.
    rewrite has_slash_app_slash. by destruct (Ascii.eqb c "/").
Qed.

Lemma endswith_slash_inv a :
  PyStr.endswith_slash a = true → ∃ a', a = a' ++ "/".
Proof.
  induction a as [|c a IH]; [done|]. simpl.
  destruct a as [|c' a].
  - intros ->%Ascii.eqb_eq. by exists "".
  - intros [a' ->]%IH. by exists (String c a').
Qed.

Lemma startswith_no_slash n :
  PyStr.has_slash n = false → PyStr.startswith_slash n = false.
Proof.
  destruct n as [|c r]; [done|]. simpl. by destruct (Ascii.eqb c "/").
Qed.

Lemma basename_join a n :
  PyStr.has_slash n = false → PyStr.basename (PyStr.join a n) = n.
Proof.
  intros Hn. unfold PyStr.join. rewrite startswith_no_slash by done.
  destruct (String.eqb a "") eqn:Ha; simpl.
  - apply String.eqb_eq in Ha as ->. by apply basename_no_slash.
  - destruct (PyStr.endswith_slash a) eqn:He.
    + apply endswith_slash_inv in He as [a' ->].
      rewrite string_app_assoc. by apply basename_app_slash.
    + by apply basename_app_slash.
Qed.

Lemma getitem_state v k s r s' : Py.getitem v k s = (r, s') → s' = s.
Proof. unfold Py.getitem. repeat case_match; congruence. Qed.

(** What the base constructor returns, field by field. *)
Lemma init_inr E dst_arg ty disk dc s m s' :
  DiskExportManager.init E dst_arg ty disk dc s = (inr m, s') →
  ∃ p md,
    Py.getitem disk "path" s = (inr (VStr p), s) ∧
    Py.getitem disk "metadata" s = (inr md, s) ∧
    Py.deepcopy E md s = (inr (DiskExportManager.exported_metadata m), s') ∧
    m = DiskExportManager.mk (expandvars E p)
          (PyStr.basename (expandvars E p))
          (PyStr.join (expandvars E dst_arg) (PyStr.basename (expandvars E p)))
          ty disk (DiskExportManager.exported_metadata m) dc.
Proof.
  unfold DiskExportManager.init. intros H.
  apply bind_inr in H as (vp & s1 & Hpath & H).
  pose proof (getitem_state _ _ _ _ _ Hpath) as ->.
  apply bind_inr in H as (p & s1 & Hp & H).
  destruct vp as [| | |p'|]; try done. injection Hp as <- <-.
  apply bind_inr in H as (md & s1 & Hmd & H).
  pose proof (getitem_state _ _ _ _ _ Hmd) as ->.
  apply bind_inr in H as (md' & s1 & Hcopy & H).
  injection H as <- <-. by exists p', md.
Qed.

(** X1: the exported file keeps the file name of the source image.  For
    every manager the constructor returns, [name] is the basename of
    [src] and holds no ['/'], the basename of [dst] is [name], and when
    the expanded destination directory is not empty and does not end in
    ['/'], [dst] is that directory, a ['/'] and [name]. *)
Theorem X1_destination_keeps_name E dst_arg ty disk dc s m s' :
  DiskExportManager.init E dst_arg ty disk dc s = (inr m, s') →
  DiskExportManager.name m = PyStr.basename (DiskExportManager.src m) ∧
  PyStr.has_slash (DiskExportManager.name m) = false ∧
  PyStr.basename (DiskExportManager.dst m) = DiskExportManager.name m ∧
  (expandvars E dst_arg ≠ "" →
   PyStr.endswith_slash (expandvars E dst_arg) = false →
   DiskExportManager.dst m
   = expandvars E dst_arg ++ "/" ++ DiskExportManager.name m).
Proof.
  intros (p & md & _ & _ & _ & ->)%init_inr. simpl.
  split_and!; [done|apply has_slash_basename| |].
  - apply basename_join, has_slash_basename.
  - intros Hne Hend. unfold PyStr.join.
    rewrite startswith_no_slash by apply has_slash_basename.
    rewrite Hend. apply String.eqb_neq in Hne. by rewrite Hne.
Qed.

Lemma X1_witness :
  DiskExportManager.init (env [] true) "/out" (VStr "file") file_disk false
    start = (inr (file_manager false), constructed) ∧
  DiskExportManager.name (file_manager false) = "vm0.qcow2" ∧
  PyStr.basename (DiskExportManager.dst (file_manager false)) = "vm0.qcow2" ∧
  DiskExportManager.dst (file_manager false) = "/out/vm0.qcow2".
Proof.
  assert (DiskExportManager.init (env [] true) "/out" (VStr "file") file_disk
            false start = (inr (file_manager false), constructed)) as Hinit
    by (vm_compute; reflexivity).
  destruct (X1_destination_keeps_name _ _ _ _ _ _ _ _ Hinit)
    as (Hname & _ & Hbase & Hdst).
  split_and!; [exact Hinit|exact Hname|exact Hbase|].
  apply Hdst; [discriminate|reflexivity].
Defined.

(** ** Descriptors with missing keys *)

Lemma getitem_dict l d k s :
  st_heap s !! l = Some (ODict d) →
  Py.getitem (VRef l) k s =
  (match d !! k with Some x => inr x | None => inl (KeyError k) end, s).
Proof. intros Hl. unfold Py.getitem. rewrite Hl. by destruct (d !! k). Qed.

Lemma getitem_heap_any v k s r s2 :
  Py.getitem v k s = (r, s) →
  st_heap s2 = st_heap s →
  Py.getitem v k s2 = (r, s2).
Proof.
  unfold Py.getitem. intros H Hh. rewrite Hh.
  repeat case_match; simplify_eq; done.
Qed.

(** X2: the keys of the disk descriptor are read in a fixed order, and a
    missing one stops the construction with the [KeyError] of that key
    before anything is allocated or called: ['type'] first, then, for a
    type the table knows and keywords that bind, ['path'], then
    ['metadata'].  ['format'] is not read by the constructor. *)
Theorem X2_missing_key E dst l d dc kwargs s :
  st_heap s !! l = Some (ODict d) →
  let built := get_instance_by_type E dst (VRef l) dc kwargs s in
  (d !! "type" = None → built = (inl (KeyError "type"), s)) ∧
  (∀ t, d !! "type" = Some (VStr t) → is_Some (HANDLERS !! t) →
        keywords_bind kwargs = true →
        d !! "path" = None → built = (inl (KeyError "path"), s)) ∧
  (∀ t p, d !! "type" = Some (VStr t) → is_Some (HANDLERS !! t) →
          keywords_bind kwargs = true →
          d !! "path" = Some (VStr p) → d !! "metadata" = None →
          built = (inl (KeyError "metadata"), s)).
Proof.
  intros Hl built. subst built.
  assert (∀ t c, d !! "type" = Some (VStr t) → HANDLERS !! t = Some c →
    keywords_bind kwargs = true →
    ∀ e, DiskExportManager.init E dst (VStr t) (VRef l) dc s = (inl e, s) →
    get_instance_by_type E dst (VRef l) dc kwargs s = (inl e, s)) as Hinit.
  { intros t c Hty Hc Hkb e He.
    rewrite (get_instance_by_type_unfold _ _ _ _ _ _ t)
      by (by rewrite (getitem_dict _ _ _ _ Hl), Hty).
    rewrite Hc. destruct c; rewrite bind_unfold.
    - unfold FileExportManager.init.
      by rewrite bind_unfold, bind_keywords_run, Hkb, He.
    - unfold TemplateExportManager.init.
      by rewrite bind_unfold, bind_keywords_run, Hkb, bind_unfold, He. }
  split_and!.
  - intros Hty. unfold get_instance_by_type.
    by rewrite bind_unfold, (getitem_dict _ _ _ _ Hl), Hty.
  - intros t Hty [c Hc] Hkb Hp. apply (Hinit t c Hty Hc Hkb).
    unfold DiskExportManager.init.
    by rewrite bind_unfold, (getitem_dict _ _ _ _ Hl), Hp.
  - intros t p Hty [c Hc] Hkb Hp Hmd. apply (Hinit t c Hty Hc Hkb).
    unfold DiskExportManager.init.
    rewrite bind_unfold, (getitem_dict _ _ _ _ Hl), Hp.
    rewrite bind_unfold. simpl.
    by rewrite bind_unfold, (getitem_dict _ _ _ _ Hl), Hmd.
Qed.

(** The metadata dict of the scenario is no disk descriptor: it has no
    ['type']. *)
Lemma X2_witness :
  st_heap start !! 1%positive = Some (ODict metadata) ∧
  get_instance_by_type (env [] true) "/out" (VRef 1%positive) false ∅ start
  = (inl (KeyError "type"), start).
Proof.
  split; [reflexivity|].
  apply (X2_missing_key (env [] true) "/out" 1%positive metadata false ∅
           start eq_refl).
  reflexivity.
Defined.

(** X3: ['format'] is looked up by [sparse], after the copy.  When the
    lookup fails and [cp] went through, the export fails with the error
    of the lookup ([KeyError('format')] for a descriptor without the
    key), having called [cp] and then only the rollback's [rmtree];
    [virt-sparsify] is not run. *)
Theorem X3_format_read_after_copy E i s e f1 :
  let m := manager_of i in
  Py.getitem (DiskExportManager.disk m) "format" s = (inl e, s) →
  tool_cp E (DiskExportManager.src m) (DiskExportManager.dst m) (st_fs s)
  = (None, f1) →
  ∃ s',
    export E i s = (inl e, s') ∧
    st_heap s' = st_heap s ∧
    st_trace s' =
      (st_trace s ++ [EvCp (DiskExportManager.src m) (DiskExportManager.dst m);
                      EvRmtree (DiskExportManager.dst m)])%list.
Proof.
  intros m Hfmt Hcp.
  assert (export_body_of E i (set_rollback [] s)
          = (inl e, mkState f1 (st_heap s)
                      (st_trace s ++ [EvCp (DiskExportManager.src m)
                                           (DiskExportManager.dst m)])
                      [DeferRmtree (DiskExportManager.dst m) true])) as Hbody.
  { destruct i as [self|self]; simpl in *;
      [unfold FileExportManager.export_body
      |unfold TemplateExportManager.export_body];
      rewrite prependDefer_then;
      rewrite bind_unfold; unfold DiskExportManager.copy, run_tool; simpl;
      fold m; rewrite Hcp;
      rewrite bind_unfold; unfold DiskExportManager.sparse;
      rewrite bind_unfold;
      (erewrite getitem_heap_any; [|exact Hfmt|done]); done. }
  rewrite export_scope, scope_unfold, Hbody. simpl.
  destruct (rmtree_spec (DiskExportManager.dst m) true
              (mkState f1 (st_heap s)
                 (st_trace s ++ [EvCp (DiskExportManager.src m)
                                      (DiskExportManager.dst m)])
                 [DeferRmtree (DiskExportManager.dst m) true]))
    as (r1 & f & Hrm & _).
  fold m. rewrite Hrm. simpl. eexists. split_and!; [done..|].
  simpl. by rewrite <- app_assoc.
Qed.

(** A descriptor without ['format']: the manager is built, and the
    export fails once the copy is made. *)
Lemma X3_witness :
  let no_format :=
    <[2%positive := ODict (delete "format" (descriptor "file"))]> heap in
  let s := set_heap (<[5%positive := ODict metadata]> no_format) constructed in
  let i := FileInstance (file_manager false) in
  get_instance_by_type (env [] true) "/out" file_disk false ∅
    (set_heap no_format start) = (inr i, s) ∧
  Py.getitem file_disk "format" s = (inl (KeyError "format"), s) ∧
  ∃ s',
    export (env [] true) i s = (inl (KeyError "format"), s') ∧
    st_heap s' = st_heap s ∧
    st_trace s' = [EvCp "/prefix/vm0.qcow2" "/out/vm0.qcow2";
                   EvRmtree "/out/vm0.qcow2"].
Proof.
  intros no_format s i.
  assert (Py.getitem file_disk "format" s = (inl (KeyError "format"), s))
    as Hfmt by reflexivity.
  split_and!; [by vm_compute|exact Hfmt|].
  apply (X3_format_read_after_copy (env [] true) i s (KeyError "format")
           (st_fs copied) Hfmt).
  reflexivity.
Defined.

(** ** Calls and files of an export *)

(** X4: the calls of an export.  Whatever the outcome, the calls an
    export adds to the trace are calls of the tools on its own source and
    destination, [open] and [write] on the two sidecars of the
    destination, [os.stat] of the destination, and the rollback's
    [rmtree]; [utils.compress] and [os.unlink] are called only when the
    compress flag is set, and [get_qemu_info] is never called by
    [export]. *)
Theorem X4_calls_of_export E i s :
  ∃ t,
    st_trace (export E i s).2 = (st_trace s ++ t)%list ∧
    Forall (issued_by i) t ∧
    (∀ p, ¬ In (EvQemuInfo p) t) ∧
    (DiskExportManager.do_compress (manager_of i) = false →
     ∀ p, ¬ In (EvUnlink p) t ∧ ∀ z, ¬ In (EvCompress p z) t).
Proof.
  destruct (export E i s) as [r s'] eqn:Hex.
  assert (fs_rules E (manager_of i) (λ _ _, True)) as Hrules by by split.
  destruct (keeps_export (λ _ _, True) (issued_by i)
              (λ _, I) (λ _ _ _ _ _, I) E i Hrules (λ _ H, H) _ _ _ Hex)
    as [_ (t & Ht & Hok)].
  exists t. simpl. split_and!; [done..| |].
  - intros p Hin%list_elem_of_In.
    by apply (proj1 (Forall_forall _ _) Hok) in Hin.
  - intros Hdc p. split; [|intros z]; intros Hin%list_elem_of_In;
      apply (proj1 (Forall_forall _ _) Hok) in Hin; simpl in Hin;
      destruct Hin as [Hin _]; congruence.
Qed.

Lemma tools_keep_rules E m p :
  tools_keep E m p →
  Os.outside (DiskExportManager.dst m) p = true →
  p ≠ DiskExportManager.dst m ++ ".hash" →
  p ≠ DiskExportManager.dst m ++ ".metadata" →
  fs_rules E m (λ f f', f' !! p = f !! p).
Proof.
  intros (Hcp & Hsp & Hcz & Hrb) Hout Hhash Hmeta.
  assert (p ≠ DiskExportManager.dst m) as Hdst.
  { intros ->. unfold Os.outside in Hout.
    by rewrite String.eqb_refl in Hout. }
  split; try done.
  - intros f1 f2 f3 H12 H23. congruence.
  - intros f n. by rewrite lookup_insert_ne.
  - intros f n. by rewrite lookup_insert_ne.
  - intros f. by rewrite lookup_delete_ne.
  - intros f. destruct (f !! p) as [n|] eqn:Hp.
    + by apply map_lookup_filter_Some.
    + apply map_lookup_filter_None. by left.
Qed.



(** ** The copy of a flat metadata dict *)

Lemma deepcopy_rec_scalar fuel v c :
  scalar v = true → Py.deepcopy_rec fuel v c = (inr v, c).
Proof. by destruct v, fuel. Qed.

Lemma copy_dict_items_flat f y kvs memo h d0 :
  Forall (λ kv, scalar kv.2 = true) kvs →
  Py.copy_dict_items (Py.deepcopy_rec f) y kvs (memo, <[y := ODict d0]> h)
  = (None, (memo, <[y := ODict (foldl (λ d kv, <[kv.1 := kv.2]> d) d0 kvs)]> h)).
Proof.
  revert d0. induction kvs as [|[k v] kvs IH]; intros d0 Hkvs; [done|].
  apply Forall_cons in Hkvs as [Hv Hkvs]. simpl in *.
  rewrite deepcopy_rec_scalar by done.
  rewrite alter_insert_eq. simpl. by apply IH.
Qed.

Lemma foldl_store_lookup (kvs : list (string * value))
    (d0 : gmap string value) k :
  NoDup kvs.*1 →
  foldl (λ d kv, <[kv.1 := kv.2]> d) d0 kvs !! k =
  match (list_to_map kvs : gmap string value) !! k with
  | Some v => Some v
  | None => d0 !! k
  end.
Proof.
  revert d0. induction kvs as [|[k' v'] kvs IH]; intros d0 Hnd; [done|].
  apply NoDup_cons in Hnd as [Hk' Hnd]. simpl.
  rewrite IH by done.
  destruct (decide (k = k')) as [->|Hne].
  - rewrite lookup_insert_eq.
    rewrite (not_elem_of_list_to_map_1 kvs k') by done.
    by rewrite lookup_insert_eq.
  - by rewrite !lookup_insert_ne.
Qed.

Lemma foldl_store_map_to_list (d : gmap string value) :
  foldl (λ d kv, <[kv.1 := kv.2]> d) ∅ (map_to_list d) = d.
Proof.
  apply map_eq. intros k.
  rewrite foldl_store_lookup by apply NoDup_fst_map_to_list.
  rewrite list_to_map_to_list. by destruct (d !! k).
Qed.

Lemma deepcopy_flat_dict E lm md s :
  st_heap s !! lm = Some (ODict md) →
  (∀ k v, md !! k = Some v → scalar v = true) →
  Py.deepcopy E (VRef lm) s =
  match recursion_limit E with
  | O => (inl RecursionError, s)
  | S _ =>
      (inr (VRef (fresh (dom (st_heap s)))),
       set_heap (<[fresh (dom (st_heap s)) := ODict md]> (st_heap s)) s)
  end.
Proof.
  intros Hlm Hflat. unfold Py.deepcopy.
  destruct (recursion_limit E) as [|f]; simpl.
  { rewrite lookup_empty. by destruct s. }
  rewrite lookup_empty, Hlm.
  rewrite copy_dict_items_flat.
  - by rewrite foldl_store_map_to_list.
  - apply Forall_forall. intros [k v] Hin%elem_of_map_to_list. by eapply Hflat.
Qed.

(** ** What reaches the [.metadata] document *)

(** The metadata object when a successful export writes it out. *)
Lemma export_persisted E i s s' l d :
  export E i s = (inr tt, s') →
  DiskExportManager.exported_metadata (manager_of i) = VRef l →
  st_heap s !! l = Some (ODict d) →
  ∃ h6 j d6,
    h6 !! l = Some (ODict d6) ∧
    (∀ k, k ∉ enrichment_keys → d6 !! k = d !! k) ∧
    Py.to_json (recursion_limit E) ∅ h6 (VRef l) = inr j ∧
    In (EvWrite (DiskExportManager.dst (manager_of i) ++ ".metadata")
          (json_dumps E j)) (st_trace s').
Proof.
  intros Hex Hl Hd.
  assert (∀ k, k ∉ enrichment_keys →
            k ≠ "sha1" ∧ k ≠ "size" ∧ k ≠ "name" ∧ k ≠ "version" ∧
            k ≠ "base") as Hkeys.
  { intros k Hk. unfold enrichment_keys in Hk.
    rewrite !not_elem_of_cons in Hk.
    by destruct Hk as (? & ? & ? & ? & ? & _). }
  assert (∀ m s6 s7 t,
    DiskExportManager.compress E m s6 = (inr tt, s7) →
    In t (st_trace s6) → In t (st_trace s7)) as Hcompress.
  { intros m s6 s7 t Hc Hin. apply compress_inr in Hc.
    destruct (DiskExportManager.do_compress m).
    - destruct Hc as (f & data & _ & _ & ->). simpl.
      apply in_or_app. by left.
    - by subst. }
  rewrite export_scope, scope_unfold in Hex.
  destruct (export_body_of E i (set_rollback [] s)) as [r sb] eqn:Hbody.
  simpl in Hex. injection Hex as -> <-.
  pose proof (export_body_rollback _ _ _ _ _ Hbody) as Hrb.
  simpl in Hrb. rewrite Hrb. simpl.
  destruct i as [self|self]; simpl in *.
  - unfold FileExportManager.export_body in Hbody.
    inv_bind Hbody. injection Hstep as <-.
    inv_bind Hbody. apply copy_inr in Hstep as (f1 & Hcp & ->).
    inv_bind Hbody. apply sparse_inr in Hstep as (fmt & f2 & Hfmt & Hsp & ->).
    inv_bind Hbody.
    apply calc_sha_inr in Hstep as (data & l1 & d1 & Hdata & Hl1 & Hd1 & ->).
    inv_bind Hbody.
    apply update_lago_metadata_inr in Hstep
      as (n & l2 & d2 & Hn & Hl2 & Hd2 & ->).
    inv_bind Hbody. apply write_lago_metadata_inr in Hstep as (j & Hj & ->).
    inv_bind Hbody. injection Hbody as <-.
    simpl in *. rewrite Hl in Hl1, Hl2, Hj.
    injection Hl1 as <-. injection Hl2 as <-.
    rewrite Hd in Hd1. injection Hd1 as <-.
    rewrite lookup_insert_eq in Hd2. injection Hd2 as <-.
    eexists _, j, _. refine (conj _ (conj _ (conj Hj _))).
    + apply lookup_insert_eq.
    + intros k (? & ? & ? & ? & ?)%Hkeys. by rewrite !lookup_insert_ne.
    + eapply Hcompress; [done|]. simpl.
      apply in_or_app. right. simpl. auto.
  - unfold TemplateExportManager.export_body in Hbody.
    inv_bind Hbody. injection Hstep as <-.
    inv_bind Hbody. apply copy_inr in Hstep as (f1 & Hcp & ->).
    inv_bind Hbody. apply sparse_inr in Hstep as (fmt & f2 & Hfmt & Hsp & ->).
    inv_bind Hbody. apply rebase_inr in Hstep as (f3 & rb & Hrebase & ->).
    inv_bind Hbody.
    apply calc_sha_inr in Hstep as (data & l1 & d1 & Hdata & Hl1 & Hd1 & ->).
    inv_bind Hbody.
    apply template_update_inr in Hstep
      as (n & l2 & d2 & Hn & Hl2 & Hd2 & ->).
    inv_bind Hbody. apply write_lago_metadata_inr in Hstep as (j & Hj & ->).
    inv_bind Hbody. injection Hbody as <-.
    simpl in *. rewrite Hl in Hl1, Hl2, Hj.
    injection Hl1 as <-. injection Hl2 as <-.
    rewrite Hd in Hd1. injection Hd1 as <-.
    rewrite lookup_insert_eq in Hd2. injection Hd2 as <-.
    eexists _, j, _. refine (conj _ (conj _ (conj Hj _))).
    + apply lookup_insert_eq.
    + intros k (? & ? & ? & ? & ?)%Hkeys. by rewrite !lookup_insert_ne.
    + eapply Hcompress; [done|]. simpl.
      apply in_or_app. right. simpl. auto.
Qed.

Lemma to_json_scalar v :
  scalar v = true →
  ∃ jv, ∀ fuel ms h, Py.to_json fuel ms h v = inr jv.
Proof.
  destruct v as [|b|z|x|l]; [| | | |done]; intros _; eexists;
    by intros [|?] ? ?.
Qed.

(** X6: provenance passes through.  In a successful export, a key of the
    copied metadata that the export does not set itself reaches the
    [.metadata] document with the value it had: for a scalar value, the
    member of the written document under that key is the value's
    encoding. *)
Theorem X6_provenance_passes_through E i s s' l d k v :
  export E i s = (inr tt, s') →
  DiskExportManager.exported_metadata (manager_of i) = VRef l →
  st_heap s !! l = Some (ODict d) →
  d !! k = Some v →
  scalar v = true →
  k ∉ enrichment_keys →
  ∃ j jv,
    In (EvWrite (DiskExportManager.dst (manager_of i) ++ ".metadata")
          (json_dumps E j)) (st_trace s') ∧
    Py.to_json (recursion_limit E) ∅ (st_heap s) v = inr jv ∧
    json_get k j = Some jv.
Proof.
  intros Hex Hl Hd Hk Hv Hfree.
  destruct (export_persisted _ _ _ _ _ _ Hex Hl Hd)
    as (h6 & j & d6 & Hh6 & Hd6 & Hj & Hin).
  destruct (to_json_scalar v Hv) as [jv Hjv].
  exists j, jv. split_and!; [done..|].
  eapply to_json_dict_lookup; [exact Hh6|exact Hj| |by intros].
  by rewrite Hd6.
Qed.

Lemma X6_witness :
  let E := env [] true in
  let i := FileInstance (file_manager false) in
  (export E i constructed).1 = inr tt ∧
  metadata !! "distro" = Some (VStr "el7") ∧
  ∃ j,
    In (EvWrite "/out/vm0.qcow2.metadata" (json_dumps E j))
       (st_trace (export E i constructed).2) ∧
    json_get "distro" j = Some (JStr "el7").
Proof.
  intros E i.
  assert ((export E i constructed).1 = inr tt) as Hok by by vm_compute.
  destruct (export E i constructed) as [r s'] eqn:Hex.
  simpl in Hok. subst r.
  assert ("distro" ∉ enrichment_keys) as Hfree.
  { unfold enrichment_keys. rewrite !not_elem_of_cons.
    split_and!; [done..|apply not_elem_of_nil]. }
  destruct (X6_provenance_passes_through E i constructed s' 5%positive
              metadata "distro" (VStr "el7") Hex eq_refl eq_refl eq_refl
              eq_refl Hfree) as (j & jv & Hin & Hjv & Hget).
  split_and!; [reflexivity..|].
  exists j. split; [exact Hin|].
  rewrite Hget. f_equal. simpl in Hjv. by injection Hjv as <-.
Defined.

(** X7: the copy of a flat metadata dict.  When the descriptor's
    ['metadata'] is a dict whose values are all scalars, the manager the
    constructor returns holds, at a location the heap did not have, a
    dict with exactly the same keys and values, and the heap is otherwise
    what it was. *)
Theorem X7_flat_metadata_copied E dst_arg ty disk dc s m s' lm md :
  DiskExportManager.init E dst_arg ty disk dc s = (inr m, s') →
  Py.getitem disk "metadata" s = (inr (VRef lm), s) →
  st_heap s !! lm = Some (ODict md) →
  (∀ k v, md !! k = Some v → scalar v = true) →
  let l := fresh (dom (st_heap s)) in
  DiskExportManager.exported_metadata m = VRef l ∧
  l ≠ lm ∧
  st_heap s !! l = None ∧
  st_heap s' = <[l := ODict md]> (st_heap s).
Proof.
  intros (p & md0 & _ & Hmd & Hcopy & _)%init_inr Hmeta Hlm Hflat l.
  rewrite Hmeta in Hmd. injection Hmd as <-.
  rewrite (deepcopy_flat_dict E lm md s Hlm Hflat) in Hcopy.
  destruct (recursion_limit E); [done|]. injection Hcopy as <- <-.
  assert (st_heap s !! l = None) as Hfresh by apply fresh_loc_None.
  split_and!; [done| |done..]. intros ->. congruence.
Qed.

Lemma X7_witness :
  DiskExportManager.init (env [] true) "/out" (VStr "file") file_disk false
    start = (inr (file_manager false), constructed) ∧
  DiskExportManager.exported_metadata (file_manager false)
  = VRef (fresh (dom (st_heap start))) ∧
  st_heap constructed
  = <[fresh (dom (st_heap start)) := ODict metadata]> (st_heap start).
Proof.
  assert (DiskExportManager.init (env [] true) "/out" (VStr "file") file_disk
            false start = (inr (file_manager false), constructed)) as Hinit
    by (vm_compute; reflexivity).
  assert (∀ k v, metadata !! k = Some v → scalar v = true) as Hflat.
  { intros k v Hk. apply elem_of_map_to_list in Hk.
    assert (Forall (λ kv, scalar kv.2 = true) (map_to_list metadata)) as Hall
      by (vm_compute; repeat constructor).
    by apply (proj1 (Forall_forall _ _) Hall) in Hk. }
  destruct (X7_flat_metadata_copied _ _ _ _ _ _ _ _ 1%positive metadata
              Hinit eq_refl eq_refl Hflat) as (Hl & _ & _ & Hheap).
  by split_and!.
Defined.

(** ** Templates *)

Lemma template_init_inr E dst_arg ty disk dc kwargs s self s1 :
  TemplateExportManager.init E dst_arg ty disk dc kwargs s = (inr self, s1) →
  ∃ s0,
    DiskExportManager.init E dst_arg ty disk dc s
    = (inr (TemplateExportManager.base self), s0) ∧
    kwargs !! "standalone" = Some (TemplateExportManager.standalone self).
Proof.
  unfold TemplateExportManager.init. intros H.
  apply bind_inr in H as ([] & s0' & Hbind & H).
  rewrite bind_keywords_run in Hbind.
  destruct (keywords_bind kwargs); [|done]. injection Hbind as <-.
  apply bind_inr in H as (b & s0 & Hbase & H).
  apply bind_inr in H as (st & s2 & Hst & H).
  apply bind_inr in H as ([] & s3 & _ & H).
  apply bind_inr in H as (s4 & s5 & _ & H).
  apply bind_inr in H as (info & s6 & _ & H).
  injection H as <- <-. exists s0. split; [done|].
  destruct (kwargs !! "standalone"); [|done]. by injection Hst as <- <-.
Qed.

Lemma compress_keeps_trace E m s6 s7 e :
  DiskExportManager.compress E m s6 = (inr tt, s7) →
  In e (st_trace s6) → In e (st_trace s7).
Proof.
  intros Hc Hin. apply compress_inr in Hc.
  destruct (DiskExportManager.do_compress m).
  - destruct Hc as (f & data & _ & _ & ->). simpl.
    apply in_or_app. by left.
  - by subst.
Qed.

(** X8: the ['base'] of a layered export.  For a template manager built
    by the constructor with [standalone] false, the [.metadata] document
    of a successful export records under ['base'] the same string as
    under ['name']: the file name of the exported image itself. *)
Theorem X8_layered_base_is_name E dst_arg ty disk dc kwargs s self s1 s' :
  TemplateExportManager.init E dst_arg ty disk dc kwargs s = (inr self, s1) →
  TemplateExportManager.standalone self = false →
  TemplateExportManager.export E self s1 = (inr tt, s') →
  let m := TemplateExportManager.base self in
  ∃ j,
    In (EvWrite (DiskExportManager.dst m ++ ".metadata") (json_dumps E j))
       (st_trace s') ∧
    json_get "name" j = Some (JStr (DiskExportManager.name m)) ∧
    json_get "base" j = Some (JStr (DiskExportManager.name m)).
Proof.
  intros (s0 & Hinit & _)%template_init_inr Hst Hex m. subst m.
  apply init_inr in Hinit as (p & md & _ & _ & _ & Hm).
  assert (PyStr.basename
            (DiskExportManager.src (TemplateExportManager.base self))
          = DiskExportManager.name (TemplateExportManager.base self))
    as Hname_src by by rewrite Hm.
  apply template_export_inr in Hex
    as (s6 & data & j & rb & fmt & l & d &
        [Hrb Hart Hhash Hmeta Href Hheap Hjson Hsha1 Hsize Hname Hversion
           Hbase Htrace Hcomp]).
  simpl in *. rewrite Hst, Hname_src in Hbase.
  destruct Hcomp as (s7 & Hcomp & ->).
  exists j. split_and!.
  - simpl. eapply compress_keeps_trace; [exact Hcomp|].
    rewrite Htrace. apply in_or_app. right. do 2 right.
    apply in_or_app. right. simpl. auto 10.
  - json_field Hname.
  - json_field Hbase.
Qed.

Lemma X8_witness :
  let E := env store_chain true in
  let self := template_manager store_chain false in
  let s1 := mkState files (<[5%positive := ODict metadata]> heap)
              [EvQemuInfo "/prefix/vm0.qcow2"] [] in
  TemplateExportManager.init E "/out" (VStr "template") template_disk false
    (standalone false) start = (inr self, s1) ∧
  (TemplateExportManager.export E self s1).1 = inr tt ∧
  ∃ j,
    In (EvWrite "/out/vm0.qcow2.metadata" (json_dumps E j))
       (st_trace (TemplateExportManager.export E self s1).2) ∧
    json_get "name" j = Some (JStr "vm0.qcow2") ∧
    json_get "base" j = Some (JStr "vm0.qcow2").
Proof.
  intros E self s1.
  assert (TemplateExportManager.init E "/out" (VStr "template") template_disk
            false (standalone false) start = (inr self, s1)) as Hinit
    by (vm_compute; reflexivity).
  assert ((TemplateExportManager.export E self s1).1 = inr tt) as Hok
    by (vm_compute; reflexivity).
  split_and!; [exact Hinit|exact Hok|].
  destruct (TemplateExportManager.export E self s1) as [r s'] eqn:Hex.
  simpl in Hok. rewrite Hok in Hex.
  exact (X8_layered_base_is_name E "/out" (VStr "template") template_disk
           false (standalone false) start self s1 s' Hinit eq_refl Hex).
Defined.

(** X9: the depth of the chain and standalone exports.  With [standalone]
    set, [rebase] never rejects a backing chain for its length: for a
    chain of one image it does nothing, and for any other chain it makes
    exactly one call, [qemu_rebase(target=dst, backing_file=)] with an
    empty backing file and the default mode, whose failure is the only
    error it can raise. *)
Theorem X9_standalone_rebase E self s r s' :
  TemplateExportManager.standalone self = true →
  TemplateExportManager.rebase E self s = (r, s') →
  let dst := DiskExportManager.dst (TemplateExportManager.base self) in
  (length (TemplateExportManager.src_qemu_info self) = 1 ∧
   r = inr tt ∧ s' = s) ∨
  (length (TemplateExportManager.src_qemu_info self) ≠ 1 ∧
   st_trace s' = (st_trace s ++ [EvRebase dst "" None])%list ∧
   st_heap s' = st_heap s ∧
   st_fs s' = (tool_qemu_rebase E dst "" None (st_fs s)).2 ∧
   r = match (tool_qemu_rebase E dst "" None (st_fs s)).1 with
       | Some e => inl e
       | None => inr tt
       end).
Proof.
  intros Hst. unfold TemplateExportManager.rebase. rewrite Hst.
  destruct (Nat.eqb _ 1) eqn:Hlen.
  - apply Nat.eqb_eq in Hlen. intros [= <- <-]. by left.
  - apply Nat.eqb_neq in Hlen. unfold run_tool. simpl.
    destruct (tool_qemu_rebase E _ "" None (st_fs s)) as [[e|] f];
      intros [= <- <-]; right; by split_and!.
Qed.

Lemma X9_witness :
  let E := env deep_chain true in
  let self := template_manager deep_chain true in
  TemplateExportManager.standalone self = true ∧
  length (TemplateExportManager.src_qemu_info self) = 3 ∧
  TemplateExportManager.rebase E self copied
  = (inr tt, mkState (st_fs copied) (st_heap copied)
               [EvRebase "/out/vm0.qcow2" "" None] []).
Proof.
  intros E self.
  assert (TemplateExportManager.rebase E self copied
          = (inr tt, mkState (st_fs copied) (st_heap copied)
                       [EvRebase "/out/vm0.qcow2" "" None] [])) as Hrun
    by reflexivity.
  destruct (X9_standalone_rebase E self copied _ _ eq_refl Hrun)
    as [(Hone & _)|(Hlen & _)]; [discriminate Hone|].
  by split_and!.
Defined.

(** ** When an export succeeds *)

Lemma encode_items_scalars rec (kvs : list (string * value)) :
  Forall (λ kv, ∃ j, rec kv.2 = inr j) kvs →
  ∃ js, Py.encode_items rec kvs = inr js.
Proof.
  induction 1 as [|[k v] kvs [j Hj] _ [js Hjs]]; simpl in *; [by eexists|].
  rewrite Hj, Hjs. by eexists.
Qed.

Lemma to_json_flat fuel h l d :
  h !! l = Some (ODict d) →
  (∀ k v, d !! k = Some v → scalar v = true) →
  ∃ j, Py.to_json (S fuel) ∅ h (VRef l) = inr j.
Proof.
  intros Hl Hflat. simpl. rewrite decide_False by set_solver. rewrite Hl.
  destruct (encode_items_scalars (Py.to_json fuel ({[l]} ∪ ∅) h)
              (map_to_list d)) as [js Hjs].
  { apply Forall_forall. intros [k v] Hin%elem_of_map_to_list.
    destruct (to_json_scalar v (Hflat _ _ Hin)) as [jv Hjv].
    exists jv. apply Hjv. }
  rewrite Hjs. by eexists.
Qed.

Section run.
Context (E : Env).
Import DiskExportManager.

Lemma calc_sha_run m algo s data l d :
  st_fs s !! dst m = Some (File data) →
  st_fs s !! (dst m ++ ".hash") ≠ Some Dir →
  may_open E (dst m ++ ".hash") (st_fs s) = true →
  exported_metadata m = VRef l →
  st_heap s !! l = Some (ODict d) →
  calc_sha E m algo s =
  (inr tt,
   mkState (<[dst m ++ ".hash" := File (digest E algo data)]> (st_fs s))
     (<[l := ODict (<[algo := VStr (digest E algo data)]> d)]> (st_heap s))
     (st_trace s ++ [EvOpen (dst m ++ ".hash"); EvGetHash (dst m) algo;
                     EvWrite (dst m ++ ".hash") (digest E algo data)])
     (st_rollback s)).
Proof.
  intros Hdata Hdir Hopen Hl Hd.
  unfold calc_sha, Os.open_wt, get_hash, Os.write, Py.setitem. munfold.
  simpl. rewrite Hopen, Hl.
  destruct (st_fs s !! (dst m ++ ".hash")) as [[old|]|] eqn:Hold; [|done|];
    simpl; rewrite lookup_insert_ne by apply hash_ne_dst;
    rewrite Hdata; simpl; rewrite lookup_insert_eq; simpl; rewrite Hd;
    f_equal; unfold set_heap, set_fs, emit; simpl; f_equal;
    rewrite ?insert_insert_eq, <- ?app_assoc; done.
Qed.

Lemma update_lago_metadata_run m s data l d :
  st_fs s !! dst m = Some (File data) →
  exported_metadata m = VRef l →
  st_heap s !! l = Some (ODict d) →
  update_lago_metadata E m s =
  (inr tt,
   mkState (st_fs s)
     (<[l := ODict (<["version" := VStr (strftime E "%Y%m%d.0")]>
                   (<["name" := VStr (name m)]>
                   (<["size" := VInt (Z.of_nat (String.length data))]> d)))]>
        (st_heap s))
     (st_trace s ++ [EvStat (dst m)])
     (st_rollback s)).
Proof.
  intros Hdata Hl Hd.
  unfold update_lago_metadata, Os.stat_size, Py.setitem. munfold.
  simpl. rewrite Hdata, Hl. simpl. rewrite Hd. simpl.
  rewrite lookup_insert_eq. simpl. rewrite lookup_insert_eq.
  f_equal. unfold set_heap, set_fs, emit; simpl. f_equal.
  by rewrite !insert_insert_eq.
Qed.

Lemma write_lago_metadata_run m s j :
  st_fs s !! (dst m ++ ".metadata") ≠ Some Dir →
  may_open E (dst m ++ ".metadata") (st_fs s) = true →
  Py.to_json (recursion_limit E) ∅ (st_heap s) (exported_metadata m) = inr j →
  write_lago_metadata E m s =
  (inr tt,
   mkState (<[dst m ++ ".metadata" := File (json_dumps E j)]> (st_fs s))
     (st_heap s)
     (st_trace s ++ [EvOpen (dst m ++ ".metadata");
                     EvWrite (dst m ++ ".metadata") (json_dumps E j)])
     (st_rollback s)).
Proof.
  intros Hdir Hopen Hj.
  unfold write_lago_metadata, Os.open_wt, Os.write. munfold.
  simpl. rewrite Hopen.
  destruct (st_fs s !! (dst m ++ ".metadata")) as [[old|]|] eqn:Hold;
    [|done|]; simpl; rewrite Hj; simpl; rewrite lookup_insert_eq; simpl;
    f_equal; unfold set_heap, set_fs, emit; simpl; f_equal;
    rewrite ?insert_insert_eq, <- ?app_assoc; done.
Qed.
End run.


